(** * terraform-provider-cloudrift: the API client and the lifecycle controller

    A shallow embedding of [pkg/cloudriftapi] (the retrying transport, the
    recipe cache, the by-id instance lookup) and of [internal/provider]
    (Create / Read / Delete of the virtual machine resource, Delete of the
    SSH key resource), with the properties of the specification stated and
    settled on that embedding.

    Conventions.
    - A Go [(T, error)] return is a [result T]; a Go [error] return is an
      [option error] ([None] is [nil]).
    - Network calls are answered by an oracle that the statements quantify
      over; the calls issued and the sleeps performed are logged in the state
      that is threaded through.
    - A [select] picks one of its ready cases; which one fires at an
      iteration of a poll loop is given by a trace of [selectCase] values. *)

From stdpp Require Import gmap strings list pretty.
From Stdlib Require Import ZArith Lia Ascii.

Local Open Scope string_scope.
Local Open Scope list_scope.
Local Open Scope Z_scope.

Module cloudriftapi.

(** ** Go errors *)

(** The error values the package produces or passes on:
    the sentinel [ErrNotFound], an error with a plain message ([errors.New],
    [fmt.Errorf] without [%w], or an error of another package), and an error
    built by [fmt.Errorf] with [%w], which carries its formatted text and
    the error it wraps. *)
Inductive error : Type :=
| ErrNotFound
| errorString (msg : string)
| wrapError (msg : string) (inner : error).

#[global] Instance error_eq_dec : EqDecision error.
Proof. solve_decision. Defined.

(** [err.Error()] *)
Definition Error (e : error) : string :=
  match e with
  | ErrNotFound => "resource not found"
  | errorString msg => msg
  | wrapError msg _ => msg
  end.

(** [errors.Is(err, ErrNotFound)]: the sentinel itself, or anywhere down the
    chain of wrapped errors. *)
Fixpoint errors_Is_ErrNotFound (e : error) : bool :=
  match e with
  | ErrNotFound => true
  | errorString _ => false
  | wrapError _ inner => errors_Is_ErrNotFound inner
  end.

Inductive result (A : Type) : Type :=
| Ok (a : A)
| Err (e : error).
Arguments Ok {A} a.
Arguments Err {A} e.

(** ** time.Duration: an int64 count of nanoseconds *)

Definition wrap64 (z : Z) : Z := (z + 2 ^ 63) mod 2 ^ 64 - 2 ^ 63.

Definition Second : Z := 1000000000.

(** [d << 1] on an int64 *)
Definition shl1 (d : Z) : Z := wrap64 (Z.shiftl d 1).

(** ** The transport *)

Record Request : Type := {
  URL : string;
  Header : list (string * string)
}.

Record Response : Type := {
  StatusCode : Z;
  Status : string;
  (** what [io.ReadAll(resp.Body)] gives *)
  Body : result string
}.

(** [http.StatusNotFound] *)
Definition StatusNotFound : Z := 404.

(** What the client has done on the wire so far: the number of
    [HTTPClient.Do] calls and the arguments of [time.Sleep], oldest first. *)
Record NetState : Type := {
  sent : nat;
  slept : list Z
}.

Definition net0 : NetState := {| sent := 0; slept := [] |}.

(** The network: the outcome of the n-th [HTTPClient.Do] (counted from 0),
    a response or a transport error. *)
Definition RoundTripper : Type := nat -> Request -> result Response.

Definition Do (rt : RoundTripper) (req : Request) (s : NetState)
  : result Response * NetState :=
  (rt (sent s) req, {| sent := S (sent s); slept := slept s |}).

Definition Sleep (d : Z) (s : NetState) : NetState :=
  {| sent := sent s; slept := slept s ++ [d] |}.

(** The fields of [HttpClient] that the modelled functions read or write. *)
Record HttpClient : Type := {
  HostURL : string;
  Token : string;
  retries : Z;
  ProtoVersion : string
}.

(** The loop [for retries := c.retries; retries > 0; retries--] of
    [DoRequestWithApiToken]; [n] is the current value of [retries] (the loop
    does nothing for a count that is zero or negative), [err] the error of
    the last attempt. *)
Fixpoint retryLoop (rt : RoundTripper) (req : Request) (n : nat)
    (backoff : Z) (err : error) (s : NetState) : result Response * NetState :=
  match n with
  | O => (Err err, s)
  | S n' =>
      let s := Sleep backoff s in
      let backoff := shl1 backoff in
      match Do rt req s with
      | (Ok resp, s) => (Ok resp, s)
      | (Err err, s) => retryLoop rt req n' backoff err s
      end
  end.

(** [req.Header.Add("X-API-KEY", c.auth.Token)] *)
Definition withApiKey (c : HttpClient) (req : Request) : Request :=
  {| URL := URL req; Header := Header req ++ [("X-API-KEY", Token c)] |}.

Section DoRequest.
Context {Parsed : Type}.

(** The second half of [DoRequestWithApiToken]: what it makes of a response
    that arrived. A status outside [200, 300) is an error, [ErrNotFound] for
    404; otherwise the caller's parser decides. *)
Definition classify (req : Request) (parse : Response -> result Parsed)
    (resp : Response) : result Parsed :=
  if negb ((200 <=? StatusCode resp) && (StatusCode resp <? 300)) then
    if StatusCode resp =? StatusNotFound then Err ErrNotFound
    else
      match Body resp with
      | Err e => Err e
      | Ok body =>
          Err (errorString ("request " +:+ URL req +:+ " failed: " +:+
                            Status resp +:+ ": body: " +:+ body))
      end
  else parse resp.

(** The first half: one attempt and, when it fails at the transport level,
    the retries. *)
Definition attempt (c : HttpClient) (rt : RoundTripper) (req : Request)
    (s : NetState) : result Response * NetState :=
  match Do rt req s with
  | (Ok resp, s) => (Ok resp, s)
  | (Err err, s) =>
      (* perform retries, if the client was configured as retryable. *)
      match retryLoop rt req (Z.to_nat (retries c)) (1 * Second) err s with
      | (Ok resp, s) => (Ok resp, s)
      | (Err err, s) =>
          (* if the retries also failed, error out. *)
          (Err (wrapError ("request failed: " +:+ Error err +:+
                           ", the failed request was retried: " +:+
                           pretty (retries c) +:+ "x") err), s)
      end
  end.

Definition DoRequestWithApiToken (c : HttpClient) (rt : RoundTripper)
    (req : Request) (parse : Response -> result Parsed) (s : NetState)
  : result Parsed * NetState :=
  let req := withApiKey c req in
  match attempt c rt req s with
  | (Err e, s) => (Err e, s)
  | (Ok resp, s) => (classify req parse resp, s)
  end.

End DoRequest.

(** ** strings.ToLower *)

(** ['A' <= c && c <= 'Z'] *)
Definition isUpper (c : ascii) : bool :=
  ((65 <=? N_of_ascii c) && (N_of_ascii c <=? 90))%N.

(** [c += 'a' - 'A'] for an upper-case byte *)
Definition lowerByte (c : ascii) : ascii :=
  if isUpper c then ascii_of_N (N_of_ascii c + 32) else c.

(** every byte is below [utf8.RuneSelf] *)
Fixpoint isASCII (s : string) : bool :=
  match s with
  | EmptyString => true
  | String c s' => (N_of_ascii c <? 128)%N && isASCII s'
  end.

Fixpoint hasUpper (s : string) : bool :=
  match s with
  | EmptyString => false
  | String c s' => isUpper c || hasUpper s'
  end.

Fixpoint lowerBytes (s : string) : string :=
  match s with
  | EmptyString => EmptyString
  | String c s' => String (lowerByte c) (lowerBytes s')
  end.

(** ** Recipes *)

(** Modelled from the spec: the generated type [RecipeDetails1] is not part
    of the sources at hand; the client reads [VirtualMachine.CloudinitUrl]
    and [VirtualMachine.ImageUrl] of it and compares it with its zero value. *)
Record RecipeDetails1 : Type := {
  CloudinitUrl : string;
  ImageUrl : string
}.

#[global] Instance RecipeDetails1_eq_dec : EqDecision RecipeDetails1.
Proof. solve_decision. Defined.

(** [var empty RecipeDetails1] *)
Definition emptyDetails : RecipeDetails1 :=
  {| CloudinitUrl := ""; ImageUrl := "" |}.

(** A recipe of the listing: its name, and what
    [json.Unmarshal(r.Details.union, &vmDetails)] makes of its details
    ([None] when unmarshalling fails). *)
Record Recipe : Type := {
  recipeName : string;
  recipeDetails : option RecipeDetails1
}.

Record RecipeGroup : Type := {
  Recipes : list Recipe
}.

(** [recipes.Data.Groups] *)
Definition ListRecipesResponseProto : Type := list RecipeGroup.

(** The client's mutable part: the recipe cache, and the number of
    [ListRecipes] calls issued so far. *)
Record ClientState : Type := {
  vmRecipies : gmap string RecipeDetails1;
  listed : nat
}.

(** Modelled from the spec: the generated [InstanceStatus] constants are not
    part of the sources at hand; the spec lists the status values as they
    appear on the wire. *)
Definition InstanceStatus : Type := string.
Definition Active : InstanceStatus := "Active".
Definition Initializing : InstanceStatus := "Initializing".
Definition Deactivating : InstanceStatus := "Deactivating".
Definition Inactive : InstanceStatus := "Inactive".

(** Modelled from the spec: the generated response types are not part of
    the sources at hand; these are the fields the client and the provider
    read. [LoginInfo] is [None] for a nil pointer, and otherwise holds what
    [AsInstanceLoginInfo0] gives: the username, or [None] on error. *)
Record VirtualMachine : Type := {
  Vmid : Z;
  vmName : string;
  LoginInfo : option (option string);
  Ready : bool
}.

Record ResourceInfo : Type := {
  riProviderName : string;
  riInstanceType : string
}.

Record InstanceAndUsageInfo : Type := {
  Id : string;
  instStatus : InstanceStatus;
  instNodeId : string;
  instNodeMode : string;
  instNodeStatus : string;
  HostAddress : option string;
  InternalHostAddress : option string;
  instResourceInfo : option ResourceInfo;
  VirtualMachines : list VirtualMachine
}.

Record SshKey : Type := {
  keyId : string;
  keyName : string;
  keyPublicKey : string
}.

Record RentInstanceResponseProto : Type := {
  InstanceIds : list string
}.

(** The body of the rent request, as [RentPublicInstanceVM] fills it. *)
Record RentInstanceRequestProto : Type := {
  rentVersion : string;
  rentDatacenters : list string;
  rentInstanceType : string;
  rentWithPublicIp : bool;
  rentCloudinitUrl : string;
  rentImageUrl : string;
  rentCloudinitCommands : string;
  rentPublicKeys : list string
}.

(** The end of [RentPublicInstanceVM]: the error of the request, the
    complaint about a missing success payload, or the payload. *)
Definition rentResponse (r : result (option RentInstanceResponseProto))
  : result RentInstanceResponseProto :=
  match r with
  | Err err => Err err
  | Ok None =>
      Err (errorString "renting instance failed, expected response with code 200 which was not returned, but no error occurred with the request itself, most likely the API changed, or the response has a missing 'Content-Type' for json")
  | Ok (Some json200) => Ok json200
  end.

(** The request [RentPublicInstanceVM] sends for the recipe details it
    found. *)
Definition rentRequest (c : HttpClient) (details : RecipeDetails1)
    (datacenter instance commands : string) (pubKeys : list string)
  : RentInstanceRequestProto :=
  {| rentVersion := ProtoVersion c;
     rentDatacenters := [datacenter];
     rentInstanceType := instance;
     rentWithPublicIp := true;
     rentCloudinitUrl := CloudinitUrl details;
     rentImageUrl := ImageUrl details;
     rentCloudinitCommands := commands;
     rentPublicKeys := pubKeys |}.

Section Client.

(** [strings.Map(unicode.ToLower, s)], which [strings.ToLower] falls back
    to for a string that is not pure ASCII. *)
Variable unicodeToLower : string -> string.

(** [base64.StdEncoding.Decode] into a buffer of the decoded length,
    returned as [string(dst[:written])]. *)
Variable base64Decode : string -> result string.

(** [strings.TrimSpace] *)
Variable TrimSpace : string -> string.

(** [c.ListRecipes()] at its n-th call: an error, or [resp.JSON200]. *)
Variable ListRecipes : nat -> result (option ListRecipesResponseProto).

(** The rent request on the wire: everything of [RentPublicInstanceVM] from
    the encoding of the body to the return of [DoRequestWithApiToken];
    [Ok None] stands for [resp == nil || resp.JSON200 == nil]. *)
Variable postRent :
  RentInstanceRequestProto -> result (option RentInstanceResponseProto).

Definition ToLower (s : string) : string :=
  if isASCII s then
    if hasUpper s then lowerBytes s else s
  else unicodeToLower s.

(** The body of the inner loop of [refreshVMRecipeCache]. *)
Definition cacheRecipe (m : gmap string RecipeDetails1) (r : Recipe)
  : gmap string RecipeDetails1 :=
  match recipeDetails r with
  | None => m
  | Some vmDetails =>
      if decide (vmDetails <> emptyDetails)
      then <[ToLower (recipeName r) := vmDetails]> m
      else m
  end.

Definition cacheGroups (m : gmap string RecipeDetails1)
    (groups : ListRecipesResponseProto) : gmap string RecipeDetails1 :=
  foldl (fun m group => foldl cacheRecipe m (Recipes group)) m groups.

Definition refreshVMRecipeCache (st : ClientState)
  : option error * ClientState :=
  let called := {| vmRecipies := vmRecipies st; listed := S (listed st) |} in
  match ListRecipes (listed st) with
  | Err err =>
      (Some (wrapError ("failed to list recipes: " +:+ Error err) err), called)
  | Ok None => (Some (errorString "invalid JSON response"), called)
  | Ok (Some groups) =>
      (None, {| vmRecipies := cacheGroups (vmRecipies st) groups;
                listed := S (listed st) |})
  end.

Definition findVMRecipe (recipe : string) (st : ClientState)
  : result RecipeDetails1 * ClientState :=
  match vmRecipies st !! recipe with
  | Some found => (Ok found, st)
  | None =>
      match refreshVMRecipeCache st with
      | (Some err, st) => (Err err, st)
      | (None, st) =>
          match vmRecipies st !! recipe with
          | Some found => (Ok found, st)
          | None =>
              (Err (errorString ("recipe " +:+ recipe +:+ " not found")), st)
          end
      end
  end.

Definition RentPublicInstanceVM (c : HttpClient)
    (recipe datacenter instance commands : string) (pubKeys : list string)
    (st : ClientState) : result RentInstanceResponseProto * ClientState :=
  if decide (recipe = "") then (Err (errorString "no image specified"), st)
  else if decide (length pubKeys = 0%nat \/ "" ∈ pubKeys)
  then (Err (errorString "no ssh key specified"), st)
  else if decide (datacenter = "") then (Err (errorString "empty datacenter"), st)
  else if decide (instance = "") then (Err (errorString "empty instance"), st)
  else
    let decoded :=
      if decide (commands <> "") then
        match base64Decode commands with
        | Err err =>
            Err (wrapError
                   ("failed to decode base64 encoded startup commands: " +:+
                    Error err) err)
        | Ok raw => Ok (TrimSpace raw)
        end
      else Ok commands in
    match decoded with
    | Err e => (Err e, st)
    | Ok commands =>
        let recipe := ToLower recipe in
        match findVMRecipe recipe st with
        | (Err err, st) =>
            (Err (wrapError ("failed to find the requested recipe " +:+
                             recipe +:+ ": " +:+ Error err) err), st)
        | (Ok details, st) =>
            let reqData :=
              rentRequest c details datacenter instance commands pubKeys in
            (rentResponse (postRent reqData), st)
        end
    end.

End Client.

(** The loop of [GetInstance] over [instances.Data.Instances]. *)
Fixpoint scanInstances (id : string) (l : list InstanceAndUsageInfo)
  : result InstanceAndUsageInfo :=
  match l with
  | [] => Err ErrNotFound
  | i :: l' =>
      if decide (Id i = id) then
        if decide (instStatus i = Inactive) then
          (* listing ById will return the Instance
             thus, check if still active. *)
          Err ErrNotFound
        else Ok i
      else scanInstances id l'
  end.

(** [GetInstance]; [listing] is what [c.listInstances] returns for the by-id
    selector of [id]. *)
Definition GetInstance (listing : result (list InstanceAndUsageInfo))
    (id : string) : result InstanceAndUsageInfo :=
  match listing with
  | Err err => Err err
  | Ok instances => scanInstances id instances
  end.

(** The backoff before the i-th retry (counted from 0): [1 * time.Second]
    shifted left i times, each shift on an int64. *)
Fixpoint backoffAt (i : nat) : Z :=
  match i with
  | O => 1 * Second
  | S i' => shl1 (backoffAt i')
  end.

Definition backoffs (k : nat) : list Z := map backoffAt (seq 0 k).

(** Two bytes that are the same letter up to ASCII case. *)
Definition sameLetter (c d : ascii) : bool :=
  (bool_decide (c = d)
   || (isUpper c && (N_of_ascii d =? N_of_ascii c + 32))
   || (isUpper d && (N_of_ascii c =? N_of_ascii d + 32)))%N.

(** Two strings that are equal up to ASCII case. *)
Fixpoint equalFold (a b : string) : bool :=
  match a, b with
  | EmptyString, EmptyString => true
  | String c a', String d b' => sameLetter c d && equalFold a' b'
  | _, _ => false
  end.

(** The recipes of a listing, in the order [refreshVMRecipeCache] visits
    them. *)
Definition listedRecipes (groups : ListRecipesResponseProto) : list Recipe :=
  concat (map Recipes groups).

(** ** Construction of the client *)

Definition Endpoint : string := "https://api.cloudrift.ai".

Definition Proto20250610 : string := "2025-06-10".

(** [strings.HasSuffix]:
    [len(s) >= len(suffix) && s[len(s)-len(suffix):] == suffix] *)
Definition HasSuffix (s suffix : string) : bool :=
  (String.length suffix <=? String.length s)%nat
  && bool_decide
       (String.substring (String.length s - String.length suffix)
          (String.length suffix) s = suffix).

(** An option mutates the client under construction. *)
Definition HttpClientOption : Type := HttpClient -> HttpClient.

Definition WithRetryableHttpClient (n : Z) : HttpClientOption :=
  fun hc =>
    {| HostURL := HostURL hc; Token := Token hc; retries := n;
       ProtoVersion := ProtoVersion hc |}.

(** [c.HostURL = url] *)
Definition setHostURL (c : HttpClient) (url : string) : HttpClient :=
  {| HostURL := url; Token := Token c; retries := retries c;
     ProtoVersion := ProtoVersion c |}.

(** [c.ProtoVersion = v] *)
Definition setProtoVersion (c : HttpClient) (v : string) : HttpClient :=
  {| HostURL := HostURL c; Token := Token c; retries := retries c;
     ProtoVersion := v |}.

(** The first part of [NewCustom]: the client as it is when [Auth] is
    called. *)
Definition prepare (endpoint token protoVersion : string)
    (opts : list HttpClientOption) : HttpClient :=
  let c := {| HostURL := endpoint; Token := token; retries := 0;
              ProtoVersion := protoVersion |} in
  let c := foldl (fun c (o : HttpClientOption) => o c) c opts in
  let c := if decide (endpoint = "") then setHostURL c Endpoint else c in
  (* ensure the server URL always has a trailing slash *)
  let c := if negb (HasSuffix (HostURL c) "/")
           then setHostURL c (HostURL c +:+ "/") else c in
  if decide (protoVersion = "") then setProtoVersion c Proto20250610 else c.

Section Construction.

Variable unicodeToLower : string -> string.
Variable ListRecipes : nat -> result (option ListRecipesResponseProto).
Variable rt : RoundTripper.

(** [http.NewRequest(method, url, nil)] *)
Variable NewRequest : string -> string -> result Request.

(** The parser [Auth] hands to [DoRequestWithApiToken]: the body read and
    unmarshalled, of which [Auth] looks at [Data.Email]. *)
Variable parseAuth : Response -> result string.

Definition Auth (c : HttpClient) (s : NetState) : option error * NetState :=
  match NewRequest "POST" (HostURL c +:+ "api/v1/auth/me") with
  | Err err => (Some err, s)
  | Ok req =>
      match DoRequestWithApiToken c rt req parseAuth s with
      | (Err err, s) => (Some err, s)
      | (Ok email, s) =>
          if decide (email = "") then
            (Some (errorString "invalid api token"), s)
          else (None, s)
      end
  end.

(** [NewCustom]. The result is the client with its recipe cache, or the
    error; the network state counts the attempts and sleeps of the auth
    request, and [listed] of the returned cache state how often the recipes
    were listed (that call is answered by [ListRecipes]). *)
Definition NewCustom (endpoint token protoVersion : string)
    (opts : list HttpClientOption) (s : NetState)
  : result (HttpClient * ClientState) * NetState :=
  let c := prepare endpoint token protoVersion opts in
  match Auth c s with
  | (Some err, s) =>
      (Err (wrapError ("failed to authenticated: " +:+ Error err) err), s)
  | (None, s) =>
      match refreshVMRecipeCache unicodeToLower ListRecipes
              {| vmRecipies := ∅; listed := 0 |} with
      | (Some err, _) =>
          (Err (wrapError ("failed to refresh recipes cache: " +:+ Error err)
                  err), s)
      | (None, st) =>
          if decide (size (vmRecipies st) = 0%nat) then
            (Err (errorString "no recipes for VMs found"), s)
          else (Ok (c, st), s)
      end
  end.

End Construction.

(** ** Requests that answer with an error only *)

Section Endpoints.
Context {Parsed : Type}.
Variable rt : RoundTripper.

(** [DeleteSSHKey]. [NewDeleteSshKeyRequest] and the parser are generated
    code: the first builds the request from the server URL and the id. *)
Definition DeleteSSHKey (c : HttpClient)
    (NewDeleteSshKeyRequest : string -> string -> result Request)
    (ParseDeleteSshKeyResponse : Response -> result Parsed)
    (id : string) (s : NetState) : option error * NetState :=
  match NewDeleteSshKeyRequest (HostURL c) id with
  | Err err => (Some err, s)
  | Ok req =>
      match DoRequestWithApiToken c rt req ParseDeleteSshKeyResponse s with
      | (Err err, s) => (Some err, s)
      | (Ok _, s) => (None, s)
      end
  end.

(** [TerminateInstance]. The generated [NewTerminateInstancesRequest] gets
    the server URL and the body: the protocol version and the by-id
    selector (marshalling the one id into the selector does not fail). *)
Definition TerminateInstance (c : HttpClient)
    (NewTerminateInstancesRequest :
       string -> string -> list string -> result Request)
    (ParseTerminateInstancesResponse : Response -> result Parsed)
    (id : string) (s : NetState) : option error * NetState :=
  match NewTerminateInstancesRequest (HostURL c) (ProtoVersion c) [id] with
  | Err err => (Some err, s)
  | Ok req =>
      match DoRequestWithApiToken c rt req ParseTerminateInstancesResponse s
      with
      | (Err err, s) => (Some err, s)
      | (Ok _, s) => (None, s)
      end
  end.

End Endpoints.

(** A recipe of a listing that [refreshVMRecipeCache] stores: its details
    unmarshal and are not the zero value. *)
Definition usable (r : Recipe) : bool :=
  match recipeDetails r with
  | Some d => bool_decide (d <> emptyDetails)
  | None => false
  end.

End cloudriftapi.

Module provider.
Import cloudriftapi.

(** ** Values of the plugin framework *)

(** [types.String]: null (the zero value), unknown, or a known string. *)
Inductive types_String : Type :=
| StringNull
| StringUnknown
| StringValue (s : string).

Definition ValueString (v : types_String) : string :=
  match v with
  | StringValue s => s
  | _ => ""
  end.

Inductive types_Int64 : Type :=
| Int64Null
| Int64Unknown
| Int64Value (z : Z).

Record virtualMachineMetadataModel : Type := {
  StartupCommands : types_String
}.

Record virtualMachineInfoModel : Type := {
  VmID : types_Int64;
  Name : types_String;
  Username : types_String
}.

(** [types.List] of the objects built from [virtualMachineInfoModel]. *)
Inductive types_List : Type :=
| ListNull
| ListUnknown
| ListValue (elems : list virtualMachineInfoModel).

Record virtualMachineModel : Type := {
  ID : types_String;
  Status : types_String;
  NodeId : types_String;
  NodeMode : types_String;
  NodeStatus : types_String;
  PublicIP : types_String;
  PrivateIP : types_String;
  ProviderName : types_String;
  InstanceType : types_String;
  VirtualMachines : types_List;
  (* Write only attributes. *)
  Metadata : option virtualMachineMetadataModel;
  Recipe : types_String;
  Datacenter : types_String;
  SSHKeyID : types_String
}.

Record sshKeyModel : Type := {
  sshID : types_String;
  sshName : types_String;
  sshPublicKey : types_String
}.

(** ** Diagnostics *)

Inductive Severity : Type := SeverityError | SeverityWarning.

Record Diagnostic : Type := {
  severity : Severity;
  Summary : string;
  Detail : string
}.

#[global] Instance Severity_eq_dec : EqDecision Severity.
Proof. solve_decision. Defined.

#[global] Instance Diagnostic_eq_dec : EqDecision Diagnostic.
Proof. solve_decision. Defined.

(** [Diagnostics.Append]: a diagnostic already in the collection is skipped. *)
Definition Append (diags : list Diagnostic) (new : list Diagnostic)
  : list Diagnostic :=
  foldl (fun (ds : list Diagnostic) d =>
           if decide (d ∈ ds) then ds else (ds ++ [d])%list) diags new.

Definition AddError (diags : list Diagnostic) (summary detail : string)
  : list Diagnostic :=
  Append diags
    [{| severity := SeverityError; Summary := summary; Detail := detail |}].

Definition HasError (diags : list Diagnostic) : bool :=
  existsb (fun d => bool_decide (severity d = SeverityError)) diags.

(** The response of a resource operation: the state ([None] when it is
    empty or was removed) and the diagnostics. *)
Record Response : Type := {
  State : option virtualMachineModel;
  Diagnostics : list Diagnostic
}.

Definition respAppend (resp : Response) (d : list Diagnostic) : Response :=
  {| State := State resp; Diagnostics := Append (Diagnostics resp) d |}.

Definition respAddError (resp : Response) (summary detail : string)
  : Response :=
  {| State := State resp;
     Diagnostics := AddError (Diagnostics resp) summary detail |}.

(** [resp.Diagnostics.Append(resp.State.Set(ctx, &m)...)]. The model struct
    matches the schema, so the conversion reports nothing. *)
Definition respStateSet (resp : Response) (m : virtualMachineModel)
  : Response :=
  {| State := Some m; Diagnostics := Append (Diagnostics resp) [] |}.

(** [resp.State.RemoveResource(ctx)] *)
Definition respRemoveResource (resp : Response) : Response :=
  {| State := None; Diagnostics := Diagnostics resp |}.

(** What an operation that blocks in a [select] has done when the trace of
    events ends: it has returned its response, or it is still waiting.
    [rounds] counts the iterations of the poll loop that were run. *)
Inductive outcome : Type :=
| Returned (resp : Response) (rounds : nat)
| Waiting.

(** ** populateModelFromInstanceResponse *)

Definition vmInfo (vm : VirtualMachine) : virtualMachineInfoModel :=
  {| VmID := Int64Value (Vmid vm);
     Name := StringValue (vmName vm);
     Username :=
       match LoginInfo vm with
       | Some (Some username) => StringValue username
       | _ => StringNull
       end |}.

(** The object and list values are built with the attribute types they
    are declared with, so no diagnostics arise. *)
Definition populateModelFromInstanceResponse (m : virtualMachineModel)
    (data : InstanceAndUsageInfo) : virtualMachineModel * list Diagnostic :=
  ({| ID := StringValue (Id data);
      Status := StringValue (instStatus data);
      NodeId := StringValue (instNodeId data);
      NodeMode := StringValue (instNodeMode data);
      NodeStatus := StringValue (instNodeStatus data);
      PublicIP :=
        match HostAddress data with
        | Some a => StringValue a
        | None => PublicIP m
        end;
      PrivateIP :=
        match InternalHostAddress data with
        | Some a => StringValue a
        | None => PrivateIP m
        end;
      ProviderName :=
        match instResourceInfo data with
        | Some ri => StringValue (riProviderName ri)
        | None => ProviderName m
        end;
      InstanceType :=
        match instResourceInfo data with
        | Some ri => StringValue (riInstanceType ri)
        | None => InstanceType m
        end;
      VirtualMachines :=
        ListValue (map vmInfo (cloudriftapi.VirtualMachines data));
      (* Carry over the previous state for the write only attributes, since
         the API for fetching Instances does not return these. *)
      Metadata := Metadata m;
      Recipe := Recipe m;
      Datacenter := Datacenter m;
      SSHKeyID := SSHKeyID m |}, []).

(** [if last != nil { resp.Diagnostics.Append(populate(&plan, last)...) }] *)
Definition mergeLast (plan : virtualMachineModel)
    (last : option InstanceAndUsageInfo) (resp : Response)
  : virtualMachineModel * Response :=
  match last with
  | Some l =>
      let '(plan, d) := populateModelFromInstanceResponse plan l in
      (plan, respAppend resp d)
  | None => (plan, resp)
  end.

(** ** The virtual machine resource *)

Module virtualMachineResource.

(** The case of the [select] of the create loop that fires at an iteration.
    [ctxDone] carries [ctx.Err()], which is not nil once [ctx.Done()] is
    closed; [pollTick] carries what [listInstances] returns to the
    [GetInstance] call of that tick. *)
Inductive selectCase : Type :=
| provisioningTimeout
| ctxDone (err : error)
| pollTick (listing : result (list InstanceAndUsageInfo)).

(** [len(last.VirtualMachines) > 0 && last.VirtualMachines[0].Ready] *)
Definition vmReady (last : InstanceAndUsageInfo) : bool :=
  match cloudriftapi.VirtualMachines last with
  | vm0 :: _ => Ready vm0
  | [] => false
  end.

(** The [for { select { ... } }] of [Create]. *)
Fixpoint createLoop (id : string) (plan : virtualMachineModel)
    (last : option InstanceAndUsageInfo) (resp : Response)
    (events : list selectCase) (rounds : nat) : outcome :=
  match events with
  | [] => Waiting
  | provisioningTimeout :: _ =>
      (* If there was some state previously fetched, use it to store it in
         the state file. *)
      let '(plan, resp) := mergeLast plan last resp in
      (* Save any partial state into the state file. *)
      let resp := respStateSet resp plan in
      Returned
        (respAddError resp "Provisioning timeout reached"
           "Provisioning timeout reached before finished waiting on instance creation")
        (S rounds)
  | ctxDone err :: _ =>
      let '(plan, resp) := mergeLast plan last resp in
      let resp := respStateSet resp plan in
      Returned
        (respAddError resp "Polling Interval Canceled"
           ("Polling interval canceled before finished waiting on instance creation: "
            +:+ Error err))
        (S rounds)
  | pollTick listing :: events' =>
      match GetInstance listing id with
      | Err err =>
          let resp :=
            if negb (errors_Is_ErrNotFound err) then
              let '(plan, resp) := mergeLast plan last resp in
              (* If there was an API error, store the last know state of the
                 virtual machine in the state file. *)
              respStateSet resp plan
            else resp in
          Returned
            (respAddError resp "Error creating Virtual Machine"
               ("Could not create Virtual Machine, failed to poll status of the rented Virtual Machine ID: "
                +:+ id +:+ " : " +:+ Error err))
            (S rounds)
      | Ok current =>
          let last := current in
          if bool_decide (instStatus last = Active) && vmReady last then
            let '(plan, d) := populateModelFromInstanceResponse plan last in
            let resp := respAppend resp d in
            let resp := respStateSet resp plan in
            Returned resp (S rounds)
          else createLoop id plan (Some last) resp events' (S rounds)
      end
  end.

(** [plan.ID = types.StringValue(id)] *)
Definition setID (plan : virtualMachineModel) (id : string)
  : virtualMachineModel :=
  {| ID := StringValue id;
     Status := Status plan;
     NodeId := NodeId plan;
     NodeMode := NodeMode plan;
     NodeStatus := NodeStatus plan;
     PublicIP := PublicIP plan;
     PrivateIP := PrivateIP plan;
     ProviderName := ProviderName plan;
     InstanceType := InstanceType plan;
     VirtualMachines := VirtualMachines plan;
     Metadata := Metadata plan;
     Recipe := Recipe plan;
     Datacenter := Datacenter plan;
     SSHKeyID := SSHKeyID plan |}.

(** The signature of [r.client.RentPublicInstanceVM]. *)
Definition rentCall : Type :=
  string -> string -> string -> string -> list string ->
  result RentInstanceResponseProto.

(** [Create]. [plan] and [planDiags] are what [req.Plan.Get] gives, [keys]
    what [r.client.ListSSHKeys()] returns, [rent] the rent call of the
    client, [events] the cases of the [select] that fire, in order. *)
Definition Create (plan : virtualMachineModel) (planDiags : list Diagnostic)
    (keys : result (list SshKey)) (rent : rentCall)
    (events : list selectCase) : outcome :=
  let resp := {| State := None; Diagnostics := [] |} in
  let resp := respAppend resp planDiags in
  if HasError (Diagnostics resp) then Returned resp 0
  else
    match keys with
    | Err err =>
        Returned
          (respAddError resp "Error reading CloudRift SSH Keys"
             ("Could not list CloudRift SSH Keys needed for the Virtual Machine: "
              +:+ Error err)) 0
    | Ok keys =>
        match
          List.find (fun k => bool_decide (keyId k = ValueString (SSHKeyID plan)))
            keys
        with
        | None =>
            Returned
              (respAddError resp "Error fetching Virtual Machine SSH Key"
                 ("Could not fetch Virtual Machine SSH Key with ID: " +:+
                  ValueString (SSHKeyID plan) +:+ " as it doest not exists")) 0
        | Some matched =>
            let startupCommands :=
              match Metadata plan with
              | Some md => ValueString (StartupCommands md)
              | None => ""
              end in
            match
              rent (ValueString (Recipe plan)) (ValueString (Datacenter plan))
                (ValueString (InstanceType plan)) startupCommands
                [keyPublicKey matched]
            with
            | Err err =>
                Returned
                  (respAddError resp "Error creating Virtual Machine"
                     ("Could not create Virtual Machine, unexpected error: "
                      +:+ Error err)) 0
            | Ok ids =>
                match InstanceIds ids with
                | [] =>
                    (* len(ids.Data.InstanceIds) < 1 *)
                    Returned
                      (respAddError resp "Error creating Virtual Machine"
                         "Could not create Virtual Machine, no valid IDs were returned from the CloudRift server")
                      0
                | id :: _ =>
                    (* always assing atleast the ID to the state file. *)
                    let plan := setID plan id in
                    createLoop id plan None resp events 0
                end
            end
        end
    end.

(** [Read]. [state] and [stateDiags] are what [req.State.Get] gives; the
    response starts out holding the prior state. [listInstances] answers
    the listing by id that [GetInstance] issues. *)
Definition Read (state : virtualMachineModel) (stateDiags : list Diagnostic)
    (listInstances : string -> result (list InstanceAndUsageInfo))
  : Response :=
  let resp := {| State := Some state; Diagnostics := [] |} in
  let resp := respAppend resp stateDiags in
  if HasError (Diagnostics resp) then resp
  else
    let id := ValueString (ID state) in
    match GetInstance (listInstances id) id with
    | Err err =>
        if errors_Is_ErrNotFound err then
          (* remove from state, will force recreate. *)
          respRemoveResource resp
        else
          respAddError resp "Error reading CloudRift Virtual Machine"
            ("Cloud not fetch CloudRift Virtual Machine with ID: " +:+ id +:+
             " : " +:+ Error err)
    | Ok vm =>
        let '(state, diags) := populateModelFromInstanceResponse state vm in
        let resp := respAppend resp diags in
        if HasError (Diagnostics resp) then resp
        else
          (* update tf state *)
          respStateSet resp state
    end.

(** The cases of the [select] of the delete loop: there is no deadline. *)
Inductive deleteCase : Type :=
| deleteCtxDone (err : error)
| deleteTick (listing : result (list InstanceAndUsageInfo)).

(** The [for { select { ... } }] of [Delete]; the result is the diagnostics
    and the number of iterations run, or nothing while it still waits. *)
Fixpoint deleteLoop (id : string) (diags : list Diagnostic)
    (events : list deleteCase) (rounds : nat)
  : option (list Diagnostic * nat) :=
  match events with
  | [] => None
  | deleteCtxDone err :: _ =>
      Some (AddError diags "Polling Interval Canceled"
              ("Polling interval canceled before finished waiting on instance destruction: "
               +:+ Error err), S rounds)
  | deleteTick listing :: events' =>
      (* wait until the Instance is no longer returned by the CloudRift API. *)
      match GetInstance listing id with
      | Err err =>
          if errors_Is_ErrNotFound err then
            (* successfully destroyed. *)
            Some (diags, S rounds)
          else
            Some (AddError diags "Client Error"
                    ("Polling Instance while marked for deletion: " +:+
                     Error err), S rounds)
      | Ok _ => deleteLoop id diags events' (S rounds)
      end
  end.

(** [Delete]. [terminate] is [r.client.TerminateInstance]. *)
Definition Delete (state : virtualMachineModel) (stateDiags : list Diagnostic)
    (terminate : string -> option error) (events : list deleteCase)
  : option (list Diagnostic * nat) :=
  let diags := Append [] stateDiags in
  if HasError diags then Some (diags, 0%nat)
  else
    let id := ValueString (ID state) in
    match terminate id with
    | Some err =>
        if errors_Is_ErrNotFound err then
          (* resource already deleted from outside the terraform state. *)
          Some (diags, 0%nat)
        else
          Some (AddError diags "Error Delete Virtual Machine"
                  ("Could not delete Virtual Machine with ID " +:+ id +:+ ": "
                   +:+ Error err), 0%nat)
    | None => deleteLoop id diags events 0
    end.

End virtualMachineResource.

(** ** The SSH key resource *)

Module sshKeyResource.

(** [Delete]. [deleteKey] is [r.client.DeleteSSHKey]; the result is the
    diagnostics of the response. *)
Definition Delete (state : sshKeyModel) (stateDiags : list Diagnostic)
    (deleteKey : string -> option error) : list Diagnostic :=
  let diags := Append [] stateDiags in
  if HasError diags then diags
  else
    let id := ValueString (sshID state) in
    match deleteKey id with
    | Some err =>
        if errors_Is_ErrNotFound err then
          (* resource already deleted from outside the terraform state. *)
          diags
        else
          AddError diags "Error Delete SSH Key"
            ("Could not delete SSH Key ID " +:+ id +:+ ": " +:+ Error err)
    | None => diags
    end.

(** The response of an operation on the SSH key resource. *)
Record sshResponse : Type := {
  sshState : option sshKeyModel;
  sshDiagnostics : list Diagnostic
}.

(** The model [Create] and [Read] fill from a key of the server. *)
Definition modelOfKey (k : SshKey) : sshKeyModel :=
  {| sshID := StringValue (keyId k);
     sshName := StringValue (keyName k);
     sshPublicKey := StringValue (keyPublicKey k) |}.

(** [Create]. [AddSSHKey] is [r.client.AddSSHKey], answering with
    [key.Data.PublicKey]; next to the response the result lists the
    arguments of the [AddSSHKey] calls that were made. *)
Definition Create (plan : sshKeyModel) (planDiags : list Diagnostic)
    (AddSSHKey : string -> string -> result SshKey)
  : sshResponse * list (string * string) :=
  let diags := Append [] planDiags in
  if HasError diags then ({| sshState := None; sshDiagnostics := diags |}, [])
  else if decide (ValueString (sshName plan) = "") then
    ({| sshState := None;
        sshDiagnostics :=
          AddError diags "Error creating SSH key" "Name is defined but empty" |},
     [])
  else if decide (ValueString (sshPublicKey plan) = "") then
    ({| sshState := None;
        sshDiagnostics :=
          AddError diags "Error creating SSH key"
            "Public key is defined but empty" |},
     [])
  else
    let name := ValueString (sshName plan) in
    let publicKey := ValueString (sshPublicKey plan) in
    match AddSSHKey name publicKey with
    | Err err =>
        ({| sshState := None;
            sshDiagnostics :=
              AddError diags "Error creating SSH key"
                ("Could not create SSH Key, unexpected error: " +:+ Error err) |},
         [(name, publicKey)])
    | Ok key =>
        ({| sshState := Some (modelOfKey key);
            sshDiagnostics := Append diags [] |},
         [(name, publicKey)])
    end.

(** [Read]. [keys] is what [r.client.ListSSHKeys()] returns; the response
    starts out holding the prior state. *)
Definition Read (state : sshKeyModel) (stateDiags : list Diagnostic)
    (keys : result (list SshKey)) : sshResponse :=
  let diags := Append [] stateDiags in
  if HasError diags then {| sshState := Some state; sshDiagnostics := diags |}
  else
    match keys with
    | Err err =>
        {| sshState := Some state;
           sshDiagnostics :=
             AddError diags "Error reading CloudRift SSH Keys"
               ("Could not list CloudRift SSH Keys: " +:+ Error err) |}
    | Ok keys =>
        match
          List.find (fun k => bool_decide (keyId k = ValueString (sshID state)))
            keys
        with
        | None =>
            (* remove from state, will force recreate *)
            {| sshState := None; sshDiagnostics := diags |}
        | Some matched =>
            (* update tf state. *)
            {| sshState := Some (modelOfKey matched);
               sshDiagnostics := Append diags [] |}
        end
    end.

End sshKeyResource.

(** ** The SSH key data source *)

Module sshKeyDataSource.

Record sshKeyDataModel : Type := {
  dataID : types_String;
  dataName : types_String;
  dataPublicKey : types_String
}.

Record dataResponse : Type := {
  dataState : option sshKeyDataModel;
  dataDiagnostics : list Diagnostic
}.

(** [Read]. [model] and [configDiags] are what [req.Config.Get] gives,
    [keys] what [d.client.ListSSHKeys()] returns. *)
Definition Read (model : sshKeyDataModel) (configDiags : list Diagnostic)
    (keys : result (list SshKey)) : dataResponse :=
  let diags := Append [] configDiags in
  if HasError diags then {| dataState := None; dataDiagnostics := diags |}
  else
    match keys with
    | Err err =>
        {| dataState := None;
           dataDiagnostics :=
             AddError diags "Error reading CloudRift SSH Keys"
               ("Could not list CloudRift SSH Keys: " +:+ Error err) |}
    | Ok keys =>
        match
          List.find (fun k => bool_decide (keyName k = ValueString (dataName model)))
            keys
        with
        | Some k =>
            {| dataState :=
                 Some {| dataID := StringValue (keyId k);
                         dataName := StringValue (keyName k);
                         dataPublicKey := StringValue (keyPublicKey k) |};
               dataDiagnostics := Append diags [] |}
        | None =>
            {| dataState := None;
               dataDiagnostics :=
                 AddError diags "Error reading CloudRift SSH Key"
                   ("Could not find CloudRift SSH Key " +:+
                    ValueString (dataName model)) |}
        end
    end.

End sshKeyDataSource.

(** ** The provider *)

Module CloudRiftProvider.

Definition IsNull (v : types_String) : bool :=
  match v with
  | StringNull => true
  | _ => false
  end.

Definition IsUnknown (v : types_String) : bool :=
  match v with
  | StringUnknown => true
  | _ => false
  end.

Record CloudRiftProviderModel : Type := {
  configToken : types_String;
  configBaseURL : types_String;
  configProtoVersion : types_String
}.

(** A diagnostic of the provider configuration: plain, or attached to the
    attribute at a path. *)
Inductive configDiagnostic : Type :=
| plain (d : Diagnostic)
| atAttribute (path : string) (d : Diagnostic).

#[global] Instance configDiagnostic_eq_dec : EqDecision configDiagnostic.
Proof. solve_decision. Defined.

Definition configSeverity (d : configDiagnostic) : Severity :=
  match d with
  | plain d => severity d
  | atAttribute _ d => severity d
  end.

Definition configAppend (diags new : list configDiagnostic)
  : list configDiagnostic :=
  foldl (fun (ds : list configDiagnostic) d =>
           if decide (d ∈ ds) then ds else (ds ++ [d])%list) diags new.

Definition configAddError (diags : list configDiagnostic)
    (summary detail : string) : list configDiagnostic :=
  configAppend diags
    [plain {| severity := SeverityError; Summary := summary;
              Detail := detail |}].

Definition AddAttributeError (diags : list configDiagnostic)
    (path summary detail : string) : list configDiagnostic :=
  configAppend diags
    [atAttribute path {| severity := SeverityError; Summary := summary;
                         Detail := detail |}].

Definition configHasError (diags : list configDiagnostic) : bool :=
  existsb (fun d => bool_decide (configSeverity d = SeverityError)) diags.

Section Configure.
Context {Client : Type}.

(** [os.Getenv] *)
Variable Getenv : string -> string.

(** [cloudriftapi.NewCustom] *)
Variable NewCustom :
  string -> string -> string -> list HttpClientOption -> result Client.

Record ConfigureResponse : Type := {
  DataSourceData : option Client;
  ResourceData : option Client;
  configDiagnostics : list configDiagnostic
}.

Definition failed (diags : list configDiagnostic) : ConfigureResponse :=
  {| DataSourceData := None; ResourceData := None;
     configDiagnostics := diags |}.

(** [Configure]. [config] and [getDiags] are what [req.Config.Get] gives. *)
Definition Configure (config : CloudRiftProviderModel)
    (getDiags : list configDiagnostic) : ConfigureResponse :=
  let diags := configAppend [] getDiags in
  if configHasError diags then failed diags
  else
    let diags :=
      if IsUnknown (configToken config) then
        AddAttributeError diags "token" "Unknown CloudRift API Token"
          "The provider cannot create the CloudRift API client as there is an unknown configuration for the CloudRift API token.Either target apply the source of the value first, set the value statically in the configuration, or use the CLOUDRIFT_TOKEN environment variable."
      else diags in
    let diags :=
      if IsUnknown (configBaseURL config) then
        AddAttributeError diags "base_url" "Unknown CloudRift Base URL"
          "The provider cannot create the CloudRift API client as there is an unknown configuration for the CloudRift API Base URL.Either target apply the source of the value first, set the value statically in the configuration, or use the CLOUDRIFT_BASE_URL environment variable."
      else diags in
    let diags :=
      if IsUnknown (configProtoVersion config) then
        AddAttributeError diags "proto_version"
          "Unknown CloudRift Protocol Version"
          "The provider cannot create the CloudRift API client as there is an unknown configuration for the CloudRift API Protocol Version.Either target apply the source of the value first, set the value statically in the configuration, or use the CLOUDRIFT_PROTO_VERSION environment variable."
      else diags in
    if configHasError diags then failed diags
    else
      let token := Getenv "CLOUDRIFT_TOKEN" in
      let baseURL := Getenv "CLOUDRIFT_BASE_URL" in
      let protoVersion := Getenv "CLOUDRIFT_PROTO_VERSION" in
      let token :=
        if negb (IsNull (configToken config))
        then ValueString (configToken config) else token in
      let baseURL :=
        if negb (IsNull (configBaseURL config))
        then ValueString (configBaseURL config) else baseURL in
      let protoVersion :=
        if negb (IsNull (configProtoVersion config))
        then ValueString (configProtoVersion config) else protoVersion in
      let baseURL := if decide (baseURL = "") then Endpoint else baseURL in
      let protoVersion :=
        if decide (protoVersion = "") then Proto20250610 else protoVersion in
      let diags :=
        if decide (token = "") then
          AddAttributeError diags "token" "Missing CloudRift API Token"
            "The provider cannot create the CloudRift API client as there is a missing or empty value for the CloudRift API token.Set the token value in the configuration or use the CLOUDRIFT_TOKEN environment variable.If either is already set, ensure the value is not empty."
        else diags in
      if configHasError diags then failed diags
      else
        match
          NewCustom baseURL token protoVersion [WithRetryableHttpClient 4]
        with
        | Err err =>
            failed
              (configAddError diags "Unable to create CloudRift API Client"
                 ("An unexpected error occurred when creating the CloudRift API client.If the error is not clear, please contact the provider developers."
                  +:+ String "010" (String "010" "CloudRift Client Error: ")
                  +:+ Error err))
        | Ok client =>
            {| DataSourceData := Some client; ResourceData := Some client;
               configDiagnostics := diags |}
        end.

End Configure.

End CloudRiftProvider.

(** ** Vocabulary of the statements *)

(** The readiness predicate in the words of the specification: status
    Active and at least one virtual machine ready. *)
Definition readiness (i : InstanceAndUsageInfo) : bool :=
  bool_decide (instStatus i = Active)
  && existsb Ready (cloudriftapi.VirtualMachines i).

(** The snapshot that a case of the create [select] fetches, if it is a
    poll tick whose [GetInstance] call succeeds. *)
Definition fetched (id : string) (ev : virtualMachineResource.selectCase)
  : option InstanceAndUsageInfo :=
  match ev with
  | virtualMachineResource.pollTick listing =>
      match GetInstance listing id with
      | Ok i => Some i
      | Err _ => None
      end
  | _ => None
  end.

(** A poll tick that fetches a snapshot on which the test of the create
    loop fails. *)
Definition keepsPolling (id : string)
    (ev : virtualMachineResource.selectCase) : bool :=
  match fetched id ev with
  | Some i =>
      negb (bool_decide (instStatus i = Active)
            && virtualMachineResource.vmReady i)
  | None => false
  end.

(** The snapshot fetched last over a run of poll ticks. *)
Definition lastFetched (id : string)
    (evs : list virtualMachineResource.selectCase)
    (last : option InstanceAndUsageInfo) : option InstanceAndUsageInfo :=
  foldl (fun acc ev => match fetched id ev with
                       | Some i => Some i
                       | None => acc
                       end) last evs.

(** A case of the create [select] on which [Create] gives up and persists
    the model: the deadline, a cancellation, or a poll tick whose fetch
    fails with an error that is not [ErrNotFound]. *)
Definition persistingFailure (id : string)
    (ev : virtualMachineResource.selectCase) : bool :=
  match ev with
  | virtualMachineResource.provisioningTimeout => true
  | virtualMachineResource.ctxDone _ => true
  | virtualMachineResource.pollTick listing =>
      match GetInstance listing id with
      | Err err => negb (errors_Is_ErrNotFound err)
      | Ok _ => false
      end
  end.

(** A poll tick whose fetch fails with [ErrNotFound]. *)
Definition notFoundFailure (id : string)
    (ev : virtualMachineResource.selectCase) : bool :=
  match ev with
  | virtualMachineResource.pollTick listing =>
      match GetInstance listing id with
      | Err err => errors_Is_ErrNotFound err
      | Ok _ => false
      end
  | _ => false
  end.

(** [Create] gets as far as the rent call, and the rent call returns
    [ids]: reading the plan reported no error, the SSH keys were listed, the
    key of the plan is among them, and renting with the arguments taken
    from the plan succeeded. *)
Definition rentReturns (plan : virtualMachineModel)
    (planDiags : list Diagnostic) (keys : result (list SshKey))
    (rent : virtualMachineResource.rentCall)
    (ids : RentInstanceResponseProto) : Prop :=
  HasError (Append [] planDiags) = false
  /\ exists ks matched,
       keys = Ok ks
       /\ List.find
            (fun k => bool_decide (keyId k = ValueString (SSHKeyID plan))) ks
          = Some matched
       /\ rent (ValueString (Recipe plan)) (ValueString (Datacenter plan))
            (ValueString (InstanceType plan))
            match Metadata plan with
            | Some md => ValueString (StartupCommands md)
            | None => ""
            end
            [keyPublicKey matched]
          = Ok ids.

(** A case of the delete [select] that keeps the loop polling: a tick on
    which the instance is still returned. *)
Definition stillThere (id : string) (ev : virtualMachineResource.deleteCase)
  : bool :=
  match ev with
  | virtualMachineResource.deleteTick listing =>
      match GetInstance listing id with
      | Ok _ => true
      | Err _ => false
      end
  | _ => false
  end.

(** A tick of the delete loop on which the instance is reported as not
    found. *)
Definition goneTick (id : string) (ev : virtualMachineResource.deleteCase)
  : bool :=
  match ev with
  | virtualMachineResource.deleteTick listing =>
      match GetInstance listing id with
      | Err err => errors_Is_ErrNotFound err
      | Ok _ => false
      end
  | _ => false
  end.

End provider.

(** * Scenarios

    Concrete inputs on which the properties below are exercised. *)

Module scenarios.
Import cloudriftapi.

(** The scenario of the specification: retry count 2, the transport fails
    twice and then answers. *)
Definition clientRetry2 : HttpClient :=
  {| HostURL := "https://api.cloudrift.ai/"; Token := "test";
     retries := 2; ProtoVersion := "2025-06-10" |}.

Definition failFailSucceed : RoundTripper :=
  fun n _ =>
    match n with
    | 0%nat | 1%nat => Err (errorString "connection refused")
    | _ => Ok {| StatusCode := 200; Status := "200 OK"; Body := Ok "{}" |}
    end.

(** The listing of the test server, with the first recipe registered in
    mixed case. *)
Definition ubuntuDetails : RecipeDetails1 :=
  {| CloudinitUrl := "test"; ImageUrl := "test" |}.

Definition recipeUbuntu : Recipe :=
  {| recipeName := "Ubuntu"; recipeDetails := Some ubuntuDetails |}.

Definition listingUbuntu : ListRecipesResponseProto :=
  [ {| Recipes :=
         [ recipeUbuntu;
           {| recipeName := "ubuntu-2"; recipeDetails := Some ubuntuDetails |} ]
    |} ].

Definition listRecipesUbuntu : nat -> result (option ListRecipesResponseProto) :=
  fun _ => Ok (Some listingUbuntu).

Definition listRecipesDown : nat -> result (option ListRecipesResponseProto) :=
  fun _ => Err (errorString "connection refused").

Definition freshClient : ClientState := {| vmRecipies := ∅; listed := 0 |}.

Definition postRentOne
  : RentInstanceRequestProto -> result (option RentInstanceResponseProto) :=
  fun _ => Ok (Some {| InstanceIds := ["1"] |}).

Definition asciiOnly : string -> string := fun s => s.

Definition rejectBase64 : string -> result string :=
  fun _ => Err (errorString "illegal base64 data at input byte 0").

Definition noTrim : string -> string := fun s => s.

(** The plan, the key and the instance of the provider tests. *)
Definition key1 : SshKey :=
  {| keyId := "1"; keyName := "test-key";
     keyPublicKey := "ssh-rsa AAAA testuser" |}.

Definition plan0 : provider.virtualMachineModel :=
  {| provider.ID := provider.StringUnknown;
     provider.Status := provider.StringUnknown;
     provider.NodeId := provider.StringUnknown;
     provider.NodeMode := provider.StringUnknown;
     provider.NodeStatus := provider.StringUnknown;
     provider.PublicIP := provider.StringUnknown;
     provider.PrivateIP := provider.StringUnknown;
     provider.ProviderName := provider.StringUnknown;
     provider.InstanceType := provider.StringValue "rtx49-8c-nr.1";
     provider.VirtualMachines := provider.ListUnknown;
     provider.Metadata := None;
     provider.Recipe := provider.StringValue "ubuntu";
     provider.Datacenter := provider.StringValue "us-east-nc-nr-1";
     provider.SSHKeyID := provider.StringValue "1" |}.

Definition vm (ready : bool) : VirtualMachine :=
  {| Vmid := 100; vmName := "vm-1"; LoginInfo := Some (Some "riftuser");
     Ready := ready |}.

Definition instance1 (status : InstanceStatus) (vms : list VirtualMachine)
  : InstanceAndUsageInfo :=
  {| Id := "1"; instStatus := status; instNodeId := "1";
     instNodeMode := "Virtual Machine"; instNodeStatus := "Ready";
     HostAddress := Some "127.0.0.1"; InternalHostAddress := None;
     instResourceInfo :=
       Some {| riProviderName := "provider";
               riInstanceType := "rtx49-8c-nr.1" |};
     VirtualMachines := vms |}.

(** A rent call that returns the given ids. *)
Definition rentIds (ids : list string)
  : provider.virtualMachineResource.rentCall :=
  fun _ _ _ _ _ => Ok {| InstanceIds := ids |}.

(** The state a Read or Delete starts from. *)
Definition state1 : provider.virtualMachineModel :=
  fst (provider.populateModelFromInstanceResponse
         (provider.virtualMachineResource.setID plan0 "1")
         (instance1 Active [vm true])).

Definition sshState1 : provider.sshKeyModel :=
  {| provider.sshID := provider.StringValue "11111";
     provider.sshName := provider.StringValue "anotheruser-key";
     provider.sshPublicKey := provider.StringValue "ssh-rsa AAAA anotheruser" |}.

(** A server that answers every request with 404, and one that answers
    with 200. *)
Definition answer (code : Z) (status : string) : RoundTripper :=
  fun _ _ => Ok {| StatusCode := code; Status := status; Body := Ok "" |}.

Definition newDeleteRequest : string -> string -> result Request :=
  fun host id => Ok {| URL := host +:+ "api/v1/ssh-keys/" +:+ id; Header := [] |}.

Definition newTerminateRequest
  : string -> string -> list string -> result Request :=
  fun host _ _ =>
    Ok {| URL := host +:+ "api/v1/instances/terminate"; Header := [] |}.

Definition parseNothing : cloudriftapi.Response -> result unit :=
  fun _ => Ok tt.

Definition newRequestAlways : string -> string -> result Request :=
  fun _ url => Ok {| URL := url; Header := [] |}.

Definition parseAuthTest : cloudriftapi.Response -> result string :=
  fun _ => Ok "test@test.com".

(** A listing without a usable recipe. *)
Definition listingUnusable : ListRecipesResponseProto :=
  [ {| Recipes := [ {| recipeName := "docker"; recipeDetails := None |} ] |} ].

(** The SSH key of the resource test. *)
Definition key11111 : SshKey :=
  {| keyId := "11111"; keyName := "anotheruser-key";
     keyPublicKey := "ssh-rsa AAAA anotheruser" |}.

Definition sshPlan1 : provider.sshKeyModel :=
  {| provider.sshID := provider.StringUnknown;
     provider.sshName := provider.StringValue "anotheruser-key";
     provider.sshPublicKey := provider.StringValue "ssh-rsa AAAA anotheruser" |}.

Definition addKeyTest : string -> string -> result SshKey :=
  fun name publicKey =>
    Ok {| keyId := "11111"; keyName := name; keyPublicKey := publicKey |}.

Definition dataModel1 : provider.sshKeyDataSource.sshKeyDataModel :=
  {| provider.sshKeyDataSource.dataID := provider.StringNull;
     provider.sshKeyDataSource.dataName := provider.StringValue "test-key";
     provider.sshKeyDataSource.dataPublicKey := provider.StringNull |}.

(** A provider configuration with the token only, an environment with a
    base URL only, and a constructor that returns its arguments. *)
Definition configTokenOnly : provider.CloudRiftProvider.CloudRiftProviderModel :=
  {| provider.CloudRiftProvider.configToken := provider.StringValue "test";
     provider.CloudRiftProvider.configBaseURL := provider.StringNull;
     provider.CloudRiftProvider.configProtoVersion := provider.StringNull |}.

Definition envBaseURL : string -> string :=
  fun name => if decide (name = "CLOUDRIFT_BASE_URL") then "http://127.0.0.1/"
              else "".

Definition newCustomEcho
  : string -> string -> string -> list HttpClientOption ->
    result (string * string * string) :=
  fun baseURL token protoVersion _ => Ok (baseURL, token, protoVersion).

End scenarios.

(** * Properties *)

Import cloudriftapi.
Import scenarios.

(** ** The retrying transport *)

Section Retry.
Variable rt : RoundTripper.
Variable req : Request.

(** The retry loop when the next [j] attempts fail and the one after them
    gets a response. *)
Lemma retryLoop_success (j : nat) :
  forall (n i : nat) (err : error) (s : NetState) (resp : cloudriftapi.Response),
    (j < n)%nat ->
    (forall a, (a < j)%nat -> exists e, rt (sent s + a)%nat req = Err e) ->
    rt (sent s + j)%nat req = Ok resp ->
    retryLoop rt req n (backoffAt i) err s =
      (Ok resp, {| sent := sent s + j + 1;
                   slept := slept s ++ map backoffAt (seq i (S j)) |}).
Proof.
  induction j as [|j IH]; intros n i err s resp Hlt Hfail Hok.
  - destruct n as [|n]; [lia|]. simpl.
    rewrite Nat.add_0_r in Hok. rewrite Hok.
    do 2 f_equal. lia.
  - destruct n as [|n]; [lia|]. simpl.
    destruct (Hfail 0%nat ltac:(lia)) as [e He].
    rewrite Nat.add_0_r in He. rewrite He.
    change (shl1 (backoffAt i)) with (backoffAt (S i)).
    rewrite (IH n (S i) e _ resp); simpl.
    + f_equal. f_equal; [lia|]. by rewrite <- app_assoc.
    + lia.
    + intros a Ha. destruct (Hfail (S a) ltac:(lia)) as [e' He'].
      exists e'. rewrite <- He'. f_equal. lia.
    + rewrite <- Hok. f_equal. lia.
Qed.

(** The retry loop when every attempt fails: all [n] retries are spent and
    the error of the last one is returned. *)
Lemma retryLoop_exhausted (n : nat) :
  forall (i : nat) (err : error) (s : NetState),
    (forall a, (a < n)%nat -> exists e, rt (sent s + a)%nat req = Err e) ->
    exists e,
      retryLoop rt req n (backoffAt i) err s =
        (Err e, {| sent := sent s + n;
                   slept := slept s ++ map backoffAt (seq i n) |})
      /\ (n = 0%nat -> e = err)
      /\ (forall m, n = S m -> rt (sent s + m)%nat req = Err e).
Proof.
  induction n as [|n IH]; intros i err s Hfail.
  - exists err. simpl. split; [|split; [done|discriminate]].
    destruct s; simpl. by rewrite Nat.add_0_r, app_nil_r.
  - simpl. destruct (Hfail 0%nat ltac:(lia)) as [e He].
    rewrite Nat.add_0_r in He. rewrite He.
    change (shl1 (backoffAt i)) with (backoffAt (S i)).
    match goal with
    | |- context [retryLoop rt req n _ e ?st] =>
        destruct (IH (S i) e st) as (e' & Hrun & H0 & HS)
    end.
    { intros a Ha. destruct (Hfail (S a) ltac:(lia)) as [e' He'].
      exists e'. rewrite <- He'. simpl. f_equal. lia. }
    exists e'. split; [|split; [discriminate|]].
    + rewrite Hrun. simpl. f_equal. f_equal; [lia|]. by rewrite <- app_assoc.
    + intros m [= <-]. destruct n as [|n'].
      * rewrite (H0 eq_refl). by rewrite Nat.add_0_r.
      * rewrite <- (HS n' eq_refl). simpl. f_equal. lia.
Qed.

End Retry.

(** Below 34 doublings the int64 does not overflow: the backoff before the
    i-th retry is exactly [2^i] seconds. *)
Lemma backoffAt_exact (i : nat) :
  (i < 34)%nat -> backoffAt i = 2 ^ Z.of_nat i * Second.
Proof.
  induction i as [|i IH]; intros Hi; [reflexivity|].
  simpl. rewrite IH by lia. unfold shl1, wrap64.
  rewrite Z.shiftl_mul_pow2 by lia.
  assert (Hp : 2 ^ Z.of_nat (S i) = 2 * 2 ^ Z.of_nat i).
  { rewrite Nat2Z.inj_succ, Z.pow_succ_r by lia. done. }
  assert (Hle : 2 ^ Z.of_nat i <= 2 ^ 32).
  { apply Z.pow_le_mono_r; lia. }
  assert (Hpos : 0 < 2 ^ Z.of_nat i) by (apply Z.pow_pos_nonneg; lia).
  rewrite Hp. unfold Second in *.
  rewrite Z.mod_small; lia.
Qed.

(** After 34 doublings the int64 has overflowed. *)
Example backoffAt_34 : backoffAt 34 = -1266874889709551616.
Proof. vm_compute. reflexivity. Qed.

(** When every attempt fails at the transport level, the request is tried
    once and retried [retries] times, no more, and the failure reported
    wraps the error of the last attempt. *)
Lemma transport_retry_exhausted {Parsed : Type} (c : HttpClient)
    (rt : RoundTripper) (req : Request)
    (parse : cloudriftapi.Response -> result Parsed) (s : NetState) :
  (forall a, (a <= Z.to_nat (retries c))%nat ->
     exists e, rt (sent s + a)%nat (withApiKey c req) = Err e) ->
  exists e,
    rt (sent s + Z.to_nat (retries c))%nat (withApiKey c req) = Err e /\
    DoRequestWithApiToken c rt req parse s =
      (Err (wrapError ("request failed: " +:+ Error e +:+
                       ", the failed request was retried: " +:+
                       pretty (retries c) +:+ "x") e),
       {| sent := sent s + 1 + Z.to_nat (retries c);
          slept := slept s ++ backoffs (Z.to_nat (retries c)) |}).
Proof.
  intros Hfail. unfold DoRequestWithApiToken, attempt, Do.
  destruct (Hfail 0%nat ltac:(lia)) as [e0 He0].
  rewrite Nat.add_0_r in He0. rewrite He0.
  destruct (retryLoop_exhausted rt (withApiKey c req) (Z.to_nat (retries c))
              0 e0 {| sent := S (sent s); slept := slept s |})
    as (e & Hrun & H0 & HS).
  { intros a Ha. destruct (Hfail (S a) ltac:(lia)) as [e' He'].
    exists e'. rewrite <- He'. simpl. f_equal. lia. }
  change (1 * Second) with (backoffAt 0). rewrite Hrun. simpl.
  exists e. split.
  - destruct (Z.to_nat (retries c)) as [|m] eqn:Hm.
    + rewrite (H0 eq_refl). by rewrite Nat.add_0_r.
    + rewrite <- (HS m eq_refl). simpl. f_equal. lia.
  - do 2 f_equal. f_equal. lia.
Qed.

(** C8. When a request fails at the transport level the client retries, at
    most [retries] times, sleeping before each retry for a backoff that
    starts at one second and is doubled after each sleep, and it goes on
    with the first response that arrives: if the first [k] attempts fail,
    [k] is within the retry count and attempt [k] gets a response, then
    [k + 1] attempts are made in all, the sleeps are the first [k] backoffs,
    and the result is what the response is classified as. The i-th backoff
    is [2^i] seconds (for i below 34, where the int64 nanosecond count still
    holds the value). *)
Theorem transport_retry_backoff {Parsed : Type} (c : HttpClient)
    (rt : RoundTripper) (req : Request)
    (parse : cloudriftapi.Response -> result Parsed) (s : NetState)
    (k : nat) (resp : cloudriftapi.Response) :
  (k <= Z.to_nat (retries c))%nat ->
  (forall a, (a < k)%nat ->
     exists e, rt (sent s + a)%nat (withApiKey c req) = Err e) ->
  rt (sent s + k)%nat (withApiKey c req) = Ok resp ->
  DoRequestWithApiToken c rt req parse s =
    (classify (withApiKey c req) parse resp,
     {| sent := sent s + k + 1; slept := slept s ++ backoffs k |})
  /\ (forall i, (i < k)%nat ->
        backoffs k !! i = Some (backoffAt i)
        /\ ((i < 34)%nat -> backoffAt i = 2 ^ Z.of_nat i * Second)).
Proof.
  intros Hk Hfail Hok. split.
  - unfold DoRequestWithApiToken, attempt, Do.
    destruct k as [|k].
    + rewrite Nat.add_0_r in Hok. rewrite Hok. simpl.
      do 2 f_equal; [lia | by rewrite app_nil_r].
    + destruct (Hfail 0%nat ltac:(lia)) as [e0 He0].
      rewrite Nat.add_0_r in He0. rewrite He0.
      change (1 * Second) with (backoffAt 0).
      rewrite (retryLoop_success rt (withApiKey c req) k
                 (Z.to_nat (retries c)) 0 e0 _ resp); simpl.
      * do 2 f_equal. lia.
      * lia.
      * intros a Ha. destruct (Hfail (S a) ltac:(lia)) as [e' He'].
        exists e'. rewrite <- He'. f_equal. lia.
      * rewrite <- Hok. f_equal. lia.
  - intros i Hi. split; [|apply backoffAt_exact].
    unfold backoffs. rewrite list_lookup_fmap, lookup_seq_lt by done.
    done.
Qed.

Lemma transport_retry_backoff_witness :
  DoRequestWithApiToken clientRetry2 failFailSucceed
    {| URL := "https://api.cloudrift.ai/api/v1/ssh-keys/list"; Header := [] |}
    (fun resp => Ok (StatusCode resp)) net0
  = (Ok 200, {| sent := 3; slept := [1000000000; 2000000000] |})
  /\ (forall i, (i < 2)%nat ->
        backoffs 2 !! i = Some (backoffAt i)
        /\ ((i < 34)%nat -> backoffAt i = 2 ^ Z.of_nat i * Second)).
Proof.
  apply (transport_retry_backoff clientRetry2 failFailSucceed
           {| URL := "https://api.cloudrift.ai/api/v1/ssh-keys/list";
              Header := [] |}
           (fun resp => Ok (StatusCode resp)) net0 2
           {| StatusCode := 200; Status := "200 OK"; Body := Ok "{}" |}).
  - simpl. lia.
  - intros [|[|a]] Ha; [eexists; reflexivity | eexists; reflexivity | lia].
  - reflexivity.
Defined.

(** ** The by-id lookup *)

Lemma scanInstances_skip (id : string) (pre l : list InstanceAndUsageInfo) :
  Forall (fun j => Id j <> id) pre ->
  scanInstances id (pre ++ l) = scanInstances id l.
Proof.
  induction 1 as [|j pre Hj _ IH]; [done|].
  simpl. by destruct (decide (Id j = id)).
Qed.

(** The lookup answers with an instance of the listing or with the
    sentinel, nothing else. *)
Lemma scanInstances_cases (id : string) (l : list InstanceAndUsageInfo) :
  scanInstances id l = Err ErrNotFound
  \/ exists i, scanInstances id l = Ok i
               /\ i ∈ l /\ Id i = id /\ instStatus i <> Inactive.
Proof.
  induction l as [|j l IH]; [by left|].
  simpl. destruct (decide (Id j = id)) as [Hid|Hid].
  - destruct (decide (instStatus j = Inactive)); [by left|].
    right. exists j. split_and!; try done. apply list_elem_of_here.
  - destruct IH as [IH|(i & Hi & Hin & ? & ?)]; [by left|].
    right. exists i. split_and!; try done. by apply list_elem_of_further.
Qed.

(** C4. [GetInstance] on a listing: when no instance of the listing has the
    id, or the instance with that id (the first one, should the listing
    repeat the id) is Inactive, the result is [ErrNotFound]; when that
    instance has another status, it is returned; and an instance is only
    ever returned if it is in the listing, has the id and is not
    Inactive. *)
Theorem GetInstance_inactive_is_not_found (id : string)
    (instances : list InstanceAndUsageInfo) :
  ((forall i, i ∈ instances -> Id i <> id) ->
     GetInstance (Ok instances) id = Err ErrNotFound)
  /\ (forall pre i post,
        instances = pre ++ i :: post ->
        Forall (fun j => Id j <> id) pre -> Id i = id ->
        (instStatus i = Inactive ->
           GetInstance (Ok instances) id = Err ErrNotFound)
        /\ (instStatus i <> Inactive ->
              GetInstance (Ok instances) id = Ok i))
  /\ (forall i, GetInstance (Ok instances) id = Ok i ->
        i ∈ instances /\ Id i = id /\ instStatus i <> Inactive)
  /\ (forall e, GetInstance (Ok instances) id = Err e -> e = ErrNotFound).
Proof.
  simpl. split_and!.
  - intros Hno. rewrite <- (app_nil_r instances).
    rewrite scanInstances_skip; [done|].
    apply Forall_forall. intros i Hi. by apply Hno.
  - intros pre i post -> Hpre Hid. rewrite scanInstances_skip by done.
    simpl. rewrite decide_True by done.
    split; intros Hst; [by rewrite decide_True | by rewrite decide_False].
  - intros i Hi.
    destruct (scanInstances_cases id instances) as [E|(j & E & ? & ? & ?)];
      rewrite E in Hi; [discriminate|]. by injection Hi as <-.
  - intros e He.
    destruct (scanInstances_cases id instances) as [E|(j & E & _)];
      rewrite E in He; [by injection He as <- | discriminate].
Qed.

(** ** The recipe cache *)

Section RecipeCache.
Variable unicodeToLower : string -> string.
Variable ListRecipes : nat -> result (option ListRecipesResponseProto).

Local Abbreviation refresh := (refreshVMRecipeCache unicodeToLower ListRecipes).
Local Abbreviation find := (findVMRecipe unicodeToLower ListRecipes).

(** A refresh issues one [ListRecipes] call, whatever comes of it. *)
Lemma refreshVMRecipeCache_listed (st : ClientState) :
  listed (snd (refresh st)) = S (listed st).
Proof.
  unfold refreshVMRecipeCache.
  by destruct (ListRecipes (listed st)) as [[groups|]|err].
Qed.

(** A refresh that fails leaves the cache as it was. *)
Lemma refreshVMRecipeCache_failed (st st' : ClientState) (err : error) :
  refresh st = (Some err, st') -> vmRecipies st' = vmRecipies st.
Proof.
  unfold refreshVMRecipeCache.
  destruct (ListRecipes (listed st)) as [[groups|]|e]; intros [= <- <-]; done.
Qed.

(** C5. [findVMRecipe]: on a hit the cached details are returned at once,
    with no [ListRecipes] call and the client state untouched. On a miss
    exactly one refresh is run (one [ListRecipes] call); when the refresh
    goes through the cache is looked up again, the details are returned if
    the name is there now, and otherwise the lookup fails with
    "recipe <name> not found"; when the refresh itself fails its error is
    returned. In no case is more than one refresh run. *)
Theorem findVMRecipe_single_refresh (recipe : string) (st : ClientState) :
  (forall found, vmRecipies st !! recipe = Some found ->
     find recipe st = (Ok found, st))
  /\ (vmRecipies st !! recipe = None ->
        listed (snd (find recipe st)) = S (listed st)
        /\ (forall groups, ListRecipes (listed st) = Ok (Some groups) ->
              let refreshed :=
                {| vmRecipies :=
                     cacheGroups unicodeToLower (vmRecipies st) groups;
                   listed := S (listed st) |} in
              refresh st = (None, refreshed)
              /\ (forall found, vmRecipies refreshed !! recipe = Some found ->
                    find recipe st = (Ok found, refreshed))
              /\ (vmRecipies refreshed !! recipe = None ->
                    find recipe st =
                      (Err (errorString ("recipe " +:+ recipe +:+ " not found")),
                       refreshed)))
        /\ (forall err st', refresh st = (Some err, st') ->
              find recipe st = (Err err, st')))
  /\ (listed (snd (find recipe st)) <= S (listed st))%nat.
Proof.
  split_and!.
  - intros found Hhit. unfold findVMRecipe. by rewrite Hhit.
  - intros Hmiss. split_and!.
    + unfold findVMRecipe. rewrite Hmiss.
      pose proof (refreshVMRecipeCache_listed st) as Hl.
      destruct (refresh st) as [[err|] st']; simpl in *; [done|].
      by destruct (vmRecipies st' !! recipe).
    + intros groups Hlist refreshed.
      assert (Hr : refresh st = (None, refreshed)).
      { unfold refreshVMRecipeCache. by rewrite Hlist. }
      split_and!; [done| |].
      * intros found Hnow. unfold findVMRecipe.
        rewrite Hmiss, Hr. by rewrite Hnow.
      * intros Hstill. unfold findVMRecipe.
        rewrite Hmiss, Hr. by rewrite Hstill.
    + intros err st' Hr. unfold findVMRecipe. by rewrite Hmiss, Hr.
  - unfold findVMRecipe.
    destruct (vmRecipies st !! recipe); simpl; [lia|].
    pose proof (refreshVMRecipeCache_listed st) as Hl.
    destruct (refresh st) as [[err|] st']; simpl in *; [lia|].
    destruct (vmRecipies st' !! recipe); simpl; lia.
Qed.

End RecipeCache.

(** ** Case folding *)

Lemma lowerByte_sameLetter (c d : ascii) :
  sameLetter c d = true -> lowerByte c = lowerByte d.
Proof.
  unfold sameLetter. rewrite !orb_true_iff, !andb_true_iff.
  assert (Hup : forall x y : ascii,
             isUpper x = true -> (N_of_ascii y =? N_of_ascii x + 32)%N = true ->
             lowerByte x = lowerByte y).
  { intros x y Hx Hy. apply N.eqb_eq in Hy.
    unfold lowerByte. rewrite Hx.
    assert (Hny : isUpper y = false).
    { unfold isUpper in *. apply andb_true_iff in Hx as [H1 H2].
      apply N.leb_le in H1, H2. apply andb_false_iff. right.
      apply N.leb_gt. lia. }
    rewrite Hny, <- Hy. apply ascii_N_embedding. }
  intros [[Heq|[Hc Hd]]|[Hd Hc]].
  - by apply bool_decide_eq_true in Heq as ->.
  - by apply Hup.
  - symmetry. by apply Hup.
Qed.

Lemma lowerBytes_equalFold (a : string) :
  forall b, equalFold a b = true -> lowerBytes a = lowerBytes b.
Proof.
  induction a as [|c a IH]; intros [|d b]; simpl; try done.
  intros [Hcd Hab]%andb_true_iff.
  by rewrite (lowerByte_sameLetter c d Hcd), (IH b Hab).
Qed.

Lemma lowerBytes_no_upper (s : string) :
  hasUpper s = false -> lowerBytes s = s.
Proof.
  induction s as [|c s IH]; simpl; [done|].
  intros [Hc Hs]%orb_false_iff. unfold lowerByte. by rewrite Hc, IH.
Qed.

Lemma ToLower_ascii (unicodeToLower : string -> string) (s : string) :
  isASCII s = true -> ToLower unicodeToLower s = lowerBytes s.
Proof.
  intros Hs. unfold ToLower. rewrite Hs.
  destruct (hasUpper s) eqn:Hu; [done|]. by rewrite lowerBytes_no_upper.
Qed.

(** Two ASCII names that differ in case only have the same lower-cased
    form. *)
Lemma ToLower_equalFold (unicodeToLower : string -> string) (a b : string) :
  isASCII a = true -> isASCII b = true -> equalFold a b = true ->
  ToLower unicodeToLower a = ToLower unicodeToLower b.
Proof.
  intros Ha Hb Hab. rewrite !ToLower_ascii by done.
  by apply lowerBytes_equalFold.
Qed.

(** ** Recipe resolution through the rent operation *)

Section Rent.
Variable unicodeToLower : string -> string.
Variable base64Decode : string -> result string.
Variable TrimSpace : string -> string.
Variable ListRecipes : nat -> result (option ListRecipesResponseProto).
Variable postRent :
  RentInstanceRequestProto -> result (option RentInstanceResponseProto).

Local Abbreviation lower := (ToLower unicodeToLower).

Lemma cacheGroups_listedRecipes (groups : ListRecipesResponseProto) :
  forall m,
    cacheGroups unicodeToLower m groups =
    foldl (cacheRecipe unicodeToLower) m (listedRecipes groups).
Proof.
  unfold cacheGroups, listedRecipes.
  induction groups as [|g groups IH]; intros m; simpl; [done|].
  by rewrite foldl_app, IH.
Qed.

(** After the recipes [rs] went into the cache, a recipe among them whose
    details are usable is found under its lower-cased name; what is found
    are the details of a listed recipe with that same lower-cased name (the
    last one, should several share it). *)
Lemma cacheRecipe_registered (rs : list Recipe) :
  forall (m : gmap string RecipeDetails1) (r : Recipe) (d : RecipeDetails1),
    r ∈ rs -> recipeDetails r = Some d -> d <> emptyDetails ->
    exists r' d',
      r' ∈ rs /\ recipeDetails r' = Some d' /\ d' <> emptyDetails
      /\ lower (recipeName r') = lower (recipeName r)
      /\ foldl (cacheRecipe unicodeToLower) m rs !! lower (recipeName r)
         = Some d'.
Proof.
  induction rs as [|x rs IH] using rev_ind; intros m r d Hin Hd Hne.
  - by apply elem_of_nil in Hin.
  - rewrite foldl_app. simpl.
    set (m' := foldl (cacheRecipe unicodeToLower) m rs).
    assert (Hkeep :
      (cacheRecipe unicodeToLower m' x !! lower (recipeName r)
         = m' !! lower (recipeName r) /\ x <> r)
      \/ exists dx, recipeDetails x = Some dx /\ dx <> emptyDetails
           /\ lower (recipeName x) = lower (recipeName r)
           /\ cacheRecipe unicodeToLower m' x !! lower (recipeName r)
              = Some dx).
    { unfold cacheRecipe. destruct (recipeDetails x) as [dx|] eqn:Hx.
      2: { left. split; [done|]. intros ->. rewrite Hd in Hx. discriminate. }
      destruct (decide (dx <> emptyDetails)) as [Hdx|Hdx].
      2: { left. split; [done|]. intros ->. rewrite Hd in Hx.
           injection Hx as ->. done. }
      destruct (decide (lower (recipeName x) = lower (recipeName r)))
        as [Hk|Hk].
      - right. exists dx. split_and!; try done.
        rewrite Hk. apply lookup_insert_eq.
      - left. split; [by apply lookup_insert_ne | by intros ->]. }
    destruct Hkeep as [[Hsame Hxr]|(dx & Hdx & Hdxne & Hk & Hlook)].
    + apply elem_of_app in Hin as [Hin|Hin].
      * destruct (IH m r d Hin Hd Hne) as (r' & d' & ? & ? & ? & ? & Hl).
        exists r', d'. split_and!; try done.
        -- apply elem_of_app. by left.
        -- by rewrite Hsame.
      * apply list_elem_of_singleton in Hin. congruence.
    + exists x, dx. split_and!; try done.
      apply elem_of_app. right. by apply list_elem_of_singleton.
Qed.

(** C7. Recipe resolution through the rent operation does not depend on
    case. Let the listing hold a recipe with usable details, and let the
    requested name have the same lower-cased form as the registered one
    (for ASCII names: let the two differ in case only, see
    [ToLower_equalFold]). After the cache was filled from the listing, the
    recipe is cached under its lower-cased name, and a rent call with
    well-formed arguments finds it there, without another refresh, and
    sends the rent request with the details cached under that name. *)
Theorem rent_recipe_case_insensitive (c : HttpClient) (st0 : ClientState)
    (groups : ListRecipesResponseProto) (r : Recipe) (d : RecipeDetails1)
    (requested datacenter instance commands cmds : string)
    (pubKeys : list string) :
  ListRecipes (listed st0) = Ok (Some groups) ->
  r ∈ listedRecipes groups -> recipeDetails r = Some d -> d <> emptyDetails ->
  lower requested = lower (recipeName r) ->
  requested <> "" -> pubKeys <> [] -> "" ∉ pubKeys ->
  datacenter <> "" -> instance <> "" ->
  ((commands = "" /\ cmds = "")
   \/ (commands <> "" /\
       exists raw, base64Decode commands = Ok raw /\ cmds = TrimSpace raw)) ->
  exists st r' d',
    refreshVMRecipeCache unicodeToLower ListRecipes st0 = (None, st)
    /\ r' ∈ listedRecipes groups /\ recipeDetails r' = Some d'
    /\ lower (recipeName r') = lower requested
    /\ vmRecipies st !! lower (recipeName r) = Some d'
    /\ findVMRecipe unicodeToLower ListRecipes (lower requested) st
       = (Ok d', st)
    /\ RentPublicInstanceVM unicodeToLower base64Decode TrimSpace ListRecipes
         postRent c requested datacenter instance commands pubKeys st
       = (rentResponse
            (postRent (rentRequest c d' datacenter instance cmds pubKeys)),
          st).
Proof.
  intros Hlist Hin Hd Hne Hfold Hreq Hkeys Hnokey Hdc Hinst Hcmd.
  destruct (cacheRecipe_registered (listedRecipes groups) (vmRecipies st0)
              r d Hin Hd Hne) as (r' & d' & Hin' & Hd' & _ & Hk & Hlook).
  rewrite <- cacheGroups_listedRecipes in Hlook.
  set (st := {| vmRecipies := cacheGroups unicodeToLower (vmRecipies st0) groups;
                listed := S (listed st0) |}).
  assert (Hfind : findVMRecipe unicodeToLower ListRecipes (lower requested) st
                  = (Ok d', st)).
  { unfold findVMRecipe. simpl. by rewrite Hfold, Hlook. }
  exists st, r', d'. split_and!; try done.
  - unfold refreshVMRecipeCache. by rewrite Hlist.
  - by rewrite Hfold.
  - unfold RentPublicInstanceVM.
    rewrite decide_False by done.
    rewrite decide_False.
    2: { intros [Hl|Hempty]; [|done]. by destruct pubKeys. }
    rewrite !decide_False by done.
    destruct Hcmd as [[-> ->]|(Hc & raw & Hraw & ->)].
    + rewrite decide_False by (intros H; by apply H).
      by rewrite Hfind.
    + rewrite decide_True by done. rewrite Hraw. by rewrite Hfind.
Qed.

End Rent.

Lemma findVMRecipe_single_refresh_witness :
  findVMRecipe asciiOnly listRecipesUbuntu "debian" freshClient =
    (Err (errorString "recipe debian not found"),
     {| vmRecipies := cacheGroups asciiOnly ∅ listingUbuntu; listed := 1 |}).
Proof.
  pose proof (findVMRecipe_single_refresh asciiOnly listRecipesUbuntu
                "debian" freshClient) as (_ & Hmiss & _).
  destruct (Hmiss eq_refl) as (_ & Hrefreshed & _).
  destruct (Hrefreshed listingUbuntu eq_refl) as (_ & _ & Hstill).
  apply Hstill. by vm_compute.
Defined.

(** A refresh that fails ends the lookup with the error of the refresh,
    after its one [ListRecipes] call. *)
Example findVMRecipe_refresh_fails :
  findVMRecipe asciiOnly listRecipesDown "ubuntu" freshClient =
    (Err (wrapError "failed to list recipes: connection refused"
            (errorString "connection refused")),
     {| vmRecipies := ∅; listed := 1 |}).
Proof. reflexivity. Qed.

(** "Ubuntu" is registered, "ubuntu" is requested. *)
Lemma rent_recipe_case_insensitive_witness :
  exists st r' d',
    refreshVMRecipeCache asciiOnly listRecipesUbuntu freshClient = (None, st)
    /\ r' ∈ listedRecipes listingUbuntu /\ recipeDetails r' = Some d'
    /\ ToLower asciiOnly (recipeName r') = ToLower asciiOnly "ubuntu"
    /\ vmRecipies st !! ToLower asciiOnly (recipeName recipeUbuntu) = Some d'
    /\ findVMRecipe asciiOnly listRecipesUbuntu (ToLower asciiOnly "ubuntu") st
       = (Ok d', st)
    /\ RentPublicInstanceVM asciiOnly rejectBase64 noTrim listRecipesUbuntu
         postRentOne clientRetry2 "ubuntu" "us-east-nc-nr-1" "rtx49-8c-nr.1"
         "" ["ssh-rsa AAAA testuser"] st
       = (rentResponse
            (postRentOne
               (rentRequest clientRetry2 d' "us-east-nc-nr-1" "rtx49-8c-nr.1"
                  "" ["ssh-rsa AAAA testuser"])),
          st).
Proof.
  apply (rent_recipe_case_insensitive asciiOnly rejectBase64 noTrim
           listRecipesUbuntu postRentOne clientRetry2 freshClient
           listingUbuntu recipeUbuntu ubuntuDetails).
  - reflexivity.
  - apply list_elem_of_here.
  - reflexivity.
  - discriminate.
  - reflexivity.
  - discriminate.
  - discriminate.
  - intros H. apply list_elem_of_singleton in H. discriminate.
  - discriminate.
  - discriminate.
  - left. split; reflexivity.
Defined.

(** And the other way around: "ubuntu-2" is registered, "UBUNTU-2" is
    requested; the two differ in case only. *)
Example rent_recipe_upper_case_request :
  equalFold "UBUNTU-2" "ubuntu-2" = true
  /\ fst (RentPublicInstanceVM asciiOnly rejectBase64 noTrim listRecipesUbuntu
            postRentOne clientRetry2 "UBUNTU-2" "us-east-nc-nr-1"
            "rtx49-8c-nr.1" "" ["ssh-rsa AAAA testuser"]
            (snd (refreshVMRecipeCache asciiOnly listRecipesUbuntu freshClient)))
     = Ok {| InstanceIds := ["1"] |}.
Proof. split; by vm_compute. Qed.

(** ** Diagnostics *)

Import provider.
Import provider.virtualMachineResource.

Lemma HasError_app (ds ds' : list Diagnostic) :
  HasError (ds ++ ds') = HasError ds || HasError ds'.
Proof. unfold HasError. apply existsb_app. Qed.

Lemma HasError_elem (d : Diagnostic) (ds : list Diagnostic) :
  d ∈ ds -> severity d = SeverityError -> HasError ds = true.
Proof.
  intros Hin Hd. unfold HasError. apply existsb_exists.
  exists d. split; [by apply list_elem_of_In | by apply bool_decide_eq_true].
Qed.

(** Adding an error leaves the collection with an error, also when the
    very same diagnostic was there already and is skipped. *)
Lemma HasError_AddError (ds : list Diagnostic) (summary detail : string) :
  HasError (AddError ds summary detail) = true.
Proof.
  unfold AddError, Append. simpl.
  destruct (decide (_ ∈ ds)) as [Hin|Hin].
  - by apply (HasError_elem _ _ Hin).
  - rewrite HasError_app. simpl. by rewrite orb_true_r.
Qed.

(** Closes a goal [exists resp, run = Returned resp n /\ HasError _ = true
    /\ State resp = _] once the run has been reduced to the response it
    returns, an error added last. *)
Ltac reports_error :=
  eexists; split_and!; [reflexivity | apply HasError_AddError | reflexivity].

(** ** The create loop *)

Section CreateLoop.
Variable id : string.

(** What [GetInstance] returns for [id] has that id. *)
Lemma GetInstance_Id (listing : result (list InstanceAndUsageInfo))
    (i : InstanceAndUsageInfo) :
  GetInstance listing id = Ok i -> Id i = id.
Proof.
  destruct listing as [instances|e]; [|discriminate]. simpl. intros Hi.
  destruct (scanInstances_cases id instances) as [E|(j & E & _ & Hid & _)];
    rewrite E in Hi; [discriminate|]. by injection Hi as <-.
Qed.

(** A tick that keeps the loop polling is a tick: its fetch succeeded and
    the snapshot failed the test. *)
Lemma keepsPolling_inv (ev : selectCase) :
  keepsPolling id ev = true ->
  exists listing i,
    ev = pollTick listing /\ GetInstance listing id = Ok i
    /\ bool_decide (instStatus i = Active) && vmReady i = false.
Proof.
  unfold keepsPolling, fetched. destruct ev as [| |listing]; try done.
  destruct (GetInstance listing id) as [i|e] eqn:Hget; [|done].
  intros Hn. exists listing, i. split_and!; try done.
  by apply negb_true_iff.
Qed.

(** Over a run of ticks that keep it polling, the loop only remembers the
    snapshot fetched last and counts the rounds. *)
Lemma createLoop_keeps_polling (pre : list selectCase) :
  forall (plan : virtualMachineModel) (last : option InstanceAndUsageInfo)
         (resp : Response) (evs : list selectCase) (n : nat),
    Forall (fun ev => keepsPolling id ev = true) pre ->
    createLoop id plan last resp (pre ++ evs) n =
    createLoop id plan (lastFetched id pre last) resp evs (n + length pre).
Proof.
  induction pre as [|ev pre IH]; intros plan last resp evs n Hpre.
  - simpl. by rewrite Nat.add_0_r.
  - apply Forall_cons in Hpre as [Hev Hpre].
    destruct (keepsPolling_inv ev Hev) as (listing & i & -> & Hget & Htest).
    assert (Hf : fetched id (pollTick listing) = Some i).
    { unfold fetched. by rewrite Hget. }
    change (lastFetched id (pollTick listing :: pre) last)
      with (lastFetched id pre
              match fetched id (pollTick listing) with
              | Some i => Some i
              | None => last
              end).
    rewrite Hf, <- app_comm_cons. cbn [createLoop].
    rewrite Hget, Htest. rewrite IH by done.
    f_equal. simpl. lia.
Qed.

(** The snapshot remembered over such a run has the id polled for. *)
Lemma lastFetched_Id (pre : list selectCase) :
  forall (last : option InstanceAndUsageInfo) (snap : InstanceAndUsageInfo),
    (forall l, last = Some l -> Id l = id) ->
    lastFetched id pre last = Some snap -> Id snap = id.
Proof.
  induction pre as [|ev pre IH]; intros last snap Hlast; simpl.
  - apply Hlast.
  - apply IH. unfold fetched. destruct ev as [| |listing]; try done.
    destruct (GetInstance listing id) as [i|e] eqn:Hget; [|done].
    intros l [= <-]. by apply GetInstance_Id in Hget.
Qed.

End CreateLoop.

(** Once the rent call has returned at least one id, [Create] is the poll
    loop on the first id, started with the id written into the plan, no
    snapshot, and nothing persisted. *)
Lemma Create_enters_loop (plan : virtualMachineModel)
    (planDiags : list Diagnostic) (keys : result (list SshKey))
    (rent : rentCall) (ids : RentInstanceResponseProto)
    (id : string) (rest : list string) (events : list selectCase) :
  rentReturns plan planDiags keys rent ids ->
  InstanceIds ids = id :: rest ->
  Create plan planDiags keys rent events =
  createLoop id (setID plan id) None
    {| State := None; Diagnostics := Append [] planDiags |} events 0.
Proof.
  intros (Hdiags & ks & matched & -> & Hfind & Hrent) Hids.
  unfold Create. simpl. rewrite Hdiags, Hfind, Hrent, Hids. done.
Qed.

(** ** Creation and the ids of the rent call *)

(** C1, as stated, fails: a rent call that returns two ids does not fail
    the creation. [Create] polls for the first id and, with an instance
    that is ready on the first tick, returns after that one round with the
    state persisted and no error. *)
Lemma create_two_ids_not_rejected :
  length ["1"; "2"] <> 1%nat
  /\ rentReturns plan0 [] (Ok [key1]) (rentIds ["1"; "2"])
       {| InstanceIds := ["1"; "2"] |}
  /\ exists resp m,
       Create plan0 [] (Ok [key1]) (rentIds ["1"; "2"])
         [pollTick (Ok [instance1 Active [vm true]])]
       = Returned resp 1
       /\ HasError (Diagnostics resp) = false
       /\ State resp = Some m /\ ID m = StringValue "1".
Proof.
  split; [simpl; lia|]. split.
  - split; [reflexivity|]. exists [key1], key1. by split_and!.
  - eexists _, _. split_and!; reflexivity.
Qed.

(** C1, amended. When the rent call returns no instance id, the creation
    fails: an error is reported, nothing is persisted, and no round of
    polling is run, whatever events are pending. When it returns one id or
    more, the creation goes on to poll for the first id. *)
Theorem create_requires_an_instance_id (plan : virtualMachineModel)
    (planDiags : list Diagnostic) (keys : result (list SshKey))
    (rent : rentCall) (ids : RentInstanceResponseProto)
    (events : list selectCase) :
  rentReturns plan planDiags keys rent ids ->
  (InstanceIds ids = [] ->
     exists resp,
       Create plan planDiags keys rent events = Returned resp 0
       /\ HasError (Diagnostics resp) = true
       /\ State resp = None)
  /\ (forall id rest, InstanceIds ids = id :: rest ->
        Create plan planDiags keys rent events =
        createLoop id (setID plan id) None
          {| State := None; Diagnostics := Append [] planDiags |} events 0).
Proof.
  intros Hrent. split.
  - intros Hids.
    destruct Hrent as (Hdiags & ks & matched & -> & Hfind & Hrent).
    unfold Create. simpl. rewrite Hdiags, Hfind, Hrent, Hids.
    reports_error.
  - intros id rest Hids. by apply (Create_enters_loop _ _ _ _ ids id rest).
Qed.

Lemma create_requires_an_instance_id_witness :
  (InstanceIds {| InstanceIds := [] |} = [] ->
     exists resp,
       Create plan0 [] (Ok [key1]) (rentIds [])
         [pollTick (Ok [instance1 Active [vm true]])] = Returned resp 0
       /\ HasError (Diagnostics resp) = true
       /\ State resp = None)
  /\ (forall id rest, InstanceIds {| InstanceIds := [] |} = id :: rest ->
        Create plan0 [] (Ok [key1]) (rentIds [])
          [pollTick (Ok [instance1 Active [vm true]])] =
        createLoop id (setID plan0 id) None
          {| State := None; Diagnostics := Append [] [] |}
          [pollTick (Ok [instance1 Active [vm true]])] 0).
Proof.
  apply (create_requires_an_instance_id plan0 [] (Ok [key1]) (rentIds [])
           {| InstanceIds := [] |}).
  split; [reflexivity|]. exists [key1], key1. split_and!; reflexivity.
Defined.

(** ** The readiness test of the create loop *)

(** The test of the loop looks at the first virtual machine only. *)
Lemma vmReady_head (i : InstanceAndUsageInfo) :
  vmReady i = true <-> Ready <$> head (cloudriftapi.VirtualMachines i) = Some true.
Proof.
  unfold vmReady. destruct (cloudriftapi.VirtualMachines i) as [|vm0 vms]; simpl.
  - split; discriminate.
  - split; [by intros -> | by intros [= ->]].
Qed.

(** C2, as stated, fails: a snapshot that is Active and has a ready virtual
    machine, though not as its first one, satisfies the readiness predicate
    of the specification, yet the loop does not stop at that tick: it is
    still waiting after it, and a deadline that fires next ends the
    creation with an error. *)
Lemma create_second_vm_ready_not_enough :
  readiness (instance1 Active [vm false; vm true]) = true
  /\ Create plan0 [] (Ok [key1]) (rentIds ["1"])
       [pollTick (Ok [instance1 Active [vm false; vm true]])] = Waiting
  /\ exists resp,
       Create plan0 [] (Ok [key1]) (rentIds ["1"])
         [pollTick (Ok [instance1 Active [vm false; vm true]]);
          provisioningTimeout] = Returned resp 2
       /\ HasError (Diagnostics resp) = true.
Proof.
  split_and!; [reflexivity | reflexivity |].
  eexists. split; reflexivity.
Qed.

(** A run of the loop that returns without an error stopped at a tick that
    passed the test, after ticks that all failed it. *)
Lemma createLoop_success_inv (id : string) (plan : virtualMachineModel)
    (resp : Response) (events : list selectCase) :
  forall (last : option InstanceAndUsageInfo) (n m : nat) (r : Response),
    createLoop id plan last resp events n = Returned r m ->
    HasError (Diagnostics r) = false ->
    exists pre listing snap tail,
      events = pre ++ pollTick listing :: tail
      /\ Forall (fun ev => keepsPolling id ev = true) pre
      /\ GetInstance listing id = Ok snap
      /\ instStatus snap = Active
      /\ Ready <$> head (cloudriftapi.VirtualMachines snap) = Some true
      /\ m = (n + length pre + 1)%nat.
Proof.
  induction events as [|ev events IH]; intros last n m r Hrun Hok;
    [discriminate|].
  destruct ev as [|err|listing]; cbn [createLoop] in Hrun.
  - destruct (mergeLast plan last resp) as [p q].
    injection Hrun as <- <-. simpl in Hok.
    by rewrite HasError_AddError in Hok.
  - destruct (mergeLast plan last resp) as [p q].
    injection Hrun as <- <-. simpl in Hok.
    by rewrite HasError_AddError in Hok.
  - destruct (GetInstance listing id) as [snap|err] eqn:Hget.
    + destruct (bool_decide (instStatus snap = Active) && vmReady snap)
        eqn:Htest.
      * apply andb_true_iff in Htest as [Hst Hvm].
        exists [], listing, snap, events. split_and!; try done.
        -- by apply bool_decide_eq_true in Hst.
        -- by apply vmReady_head.
        -- simpl in Hrun. injection Hrun as _ <-. simpl. lia.
      * destruct (IH _ _ _ _ Hrun Hok)
          as (pre & listing' & snap' & tail & -> & Hpre & ? & ? & ? & ->).
        exists (pollTick listing :: pre), listing', snap', tail.
        split_and!; try done; [|simpl; lia].
        apply Forall_cons. split; [|done].
        unfold keepsPolling, fetched. by rewrite Hget, Htest.
    + injection Hrun as <- <-. simpl in Hok.
      by rewrite HasError_AddError in Hok.
Qed.

(** C2, amended. During create polling the loop ends with success exactly
    at the first poll tick whose fetched snapshot has status Active and
    whose first virtual machine reports ready: after ticks that all failed
    this test, such a tick makes the loop return with the snapshot merged
    and persisted and no error added; a tick whose snapshot is not Active,
    or whose first virtual machine is missing or not ready, makes the loop
    go on with that snapshot remembered; and the loop never returns without
    an error in another way. *)
Theorem create_ready_at_first_tick_with_first_vm_ready (id : string)
    (plan : virtualMachineModel) (last : option InstanceAndUsageInfo)
    (resp : Response) (n : nat) :
  (forall pre listing snap tail,
     Forall (fun ev => keepsPolling id ev = true) pre ->
     GetInstance listing id = Ok snap ->
     instStatus snap = Active ->
     Ready <$> head (cloudriftapi.VirtualMachines snap) = Some true ->
     createLoop id plan last resp (pre ++ pollTick listing :: tail) n =
     Returned
       {| State := Some (fst (populateModelFromInstanceResponse plan snap));
          Diagnostics := Diagnostics resp |}
       (n + length pre + 1))
  /\ (forall listing snap tail,
        GetInstance listing id = Ok snap ->
        instStatus snap <> Active
        \/ Ready <$> head (cloudriftapi.VirtualMachines snap) <> Some true ->
        createLoop id plan last resp (pollTick listing :: tail) n =
        createLoop id plan (Some snap) resp tail (S n))
  /\ (forall events r m,
        createLoop id plan last resp events n = Returned r m ->
        HasError (Diagnostics r) = false ->
        exists pre listing snap tail,
          events = pre ++ pollTick listing :: tail
          /\ Forall (fun ev => keepsPolling id ev = true) pre
          /\ GetInstance listing id = Ok snap
          /\ instStatus snap = Active
          /\ Ready <$> head (cloudriftapi.VirtualMachines snap) = Some true
          /\ m = (n + length pre + 1)%nat).
Proof.
  split_and!.
  - intros pre listing snap tail Hpre Hget Hst Hvm.
    rewrite createLoop_keeps_polling by done.
    cbn [createLoop]. rewrite Hget.
    apply vmReady_head in Hvm. rewrite Hvm.
    rewrite bool_decide_eq_true_2 by done. simpl.
    f_equal. lia.
  - intros listing snap tail Hget Hnot.
    cbn [createLoop]. rewrite Hget.
    destruct Hnot as [Hst|Hvm].
    + by rewrite bool_decide_eq_false_2.
    + destruct (vmReady snap) eqn:Hr.
      * by apply vmReady_head in Hr.
      * by rewrite andb_false_r.
  - intros events r m Hrun Hok.
    by apply (createLoop_success_inv id plan resp events last n m r).
Qed.

(** The first scenario of the specification: two polls see the instance
    Initializing, the third sees it Active with its virtual machine ready,
    and the creation succeeds on the third poll. *)
Lemma create_ready_at_first_tick_with_first_vm_ready_witness :
  createLoop "1" (setID plan0 "1") None {| State := None; Diagnostics := [] |}
    ([pollTick (Ok [instance1 Initializing []]);
      pollTick (Ok [instance1 Initializing [vm false]])]
     ++ pollTick (Ok [instance1 Active [vm true]]) :: []) 0
  = Returned
      {| State := Some (fst (populateModelFromInstanceResponse
                               (setID plan0 "1") (instance1 Active [vm true])));
         Diagnostics := [] |} 3.
Proof.
  apply (proj1 (create_ready_at_first_tick_with_first_vm_ready "1"
                  (setID plan0 "1") None
                  {| State := None; Diagnostics := [] |} 0)).
  - repeat constructor.
  - reflexivity.
  - reflexivity.
  - reflexivity.
Defined.

(** ** Failure exits of the create loop *)

(** C3, as stated, fails for the NotFound case: after a poll that fetched a
    snapshot, a poll that fails with [ErrNotFound] ends the creation with
    an error and with nothing persisted. *)
Lemma create_not_found_drops_snapshot :
  fetched "1" (pollTick (Ok [instance1 Initializing []]))
    = Some (instance1 Initializing [])
  /\ exists resp,
       Create plan0 [] (Ok [key1]) (rentIds ["1"])
         [pollTick (Ok [instance1 Initializing []]);
          pollTick (Err ErrNotFound)] = Returned resp 2
       /\ HasError (Diagnostics resp) = true
       /\ State resp = None.
Proof.
  split; [reflexivity|]. eexists. split_and!; reflexivity.
Qed.

(** C3, amended. When the create poll loop gives up on the deadline, on a
    cancellation, or on a fetch error that is not NotFound, after at least
    one poll fetched a snapshot, the snapshot fetched last is merged into
    the model (which carries the rented id) and persisted, and an error is
    reported. When it gives up on a fetch that fails with NotFound, the
    error is reported and nothing is persisted. *)
Theorem create_failure_persists_last_snapshot (plan : virtualMachineModel)
    (planDiags : list Diagnostic) (keys : result (list SshKey))
    (rent : rentCall) (ids : RentInstanceResponseProto)
    (id : string) (rest : list string)
    (pre : list selectCase) (ev : selectCase) (tail : list selectCase)
    (snap : InstanceAndUsageInfo) :
  rentReturns plan planDiags keys rent ids ->
  InstanceIds ids = id :: rest ->
  Forall (fun ev => keepsPolling id ev = true) pre ->
  lastFetched id pre None = Some snap ->
  (persistingFailure id ev = true ->
     exists resp,
       Create plan planDiags keys rent (pre ++ ev :: tail)
       = Returned resp (length pre + 1)
       /\ HasError (Diagnostics resp) = true
       /\ State resp =
          Some (fst (populateModelFromInstanceResponse (setID plan id) snap)))
  /\ (notFoundFailure id ev = true ->
        exists resp,
          Create plan planDiags keys rent (pre ++ ev :: tail)
          = Returned resp (length pre + 1)
          /\ HasError (Diagnostics resp) = true
          /\ State resp = None).
Proof.
  intros Hrent Hids Hpre Hlast.
  rewrite (Create_enters_loop _ _ _ _ ids id rest) by done.
  rewrite createLoop_keeps_polling, Hlast by done.
  unfold persistingFailure, notFoundFailure.
  replace (length pre + 1)%nat with (S (0 + length pre)) by lia.
  destruct ev as [|err|listing];
    cbn [createLoop mergeLast populateModelFromInstanceResponse fst].
  - split; [intros _; reports_error | discriminate].
  - split; [intros _; reports_error | discriminate].
  - destruct (GetInstance listing id) as [i|err] eqn:Hget;
      [split; discriminate|].
    destruct (errors_Is_ErrNotFound err) eqn:Hnf; simpl.
    + split; [discriminate | intros _; reports_error].
    + split; [intros _; reports_error | discriminate].
Qed.

Lemma create_failure_persists_last_snapshot_witness :
  (persistingFailure "1" provisioningTimeout = true ->
     exists resp,
       Create plan0 [] (Ok [key1]) (rentIds ["1"])
         ([pollTick (Ok [instance1 Initializing []])]
          ++ provisioningTimeout :: [])
       = Returned resp (length [pollTick (Ok [instance1 Initializing []])] + 1)
       /\ HasError (Diagnostics resp) = true
       /\ State resp =
          Some (fst (populateModelFromInstanceResponse (setID plan0 "1")
                       (instance1 Initializing []))))
  /\ (notFoundFailure "1" provisioningTimeout = true ->
        exists resp,
          Create plan0 [] (Ok [key1]) (rentIds ["1"])
            ([pollTick (Ok [instance1 Initializing []])]
             ++ provisioningTimeout :: [])
          = Returned resp
              (length [pollTick (Ok [instance1 Initializing []])] + 1)
          /\ HasError (Diagnostics resp) = true
          /\ State resp = None).
Proof.
  apply (create_failure_persists_last_snapshot plan0 [] (Ok [key1])
           (rentIds ["1"]) {| InstanceIds := ["1"] |} "1" []).
  - split; [reflexivity|]. exists [key1], key1. split_and!; reflexivity.
  - reflexivity.
  - repeat constructor.
  - reflexivity.
Defined.

(** ** The rented id in the persisted state *)

(** C10. After a successful rent the returned id is written into the model
    before the poll loop starts, so when the loop gives up on the deadline
    or on a cancellation, the state it persists carries the rented id: with
    no snapshot fetched the persisted state is the plan with the id set,
    and with snapshots fetched it is the plan with the last one merged in,
    whose id is the rented id again. *)
Theorem create_persists_rented_id (plan : virtualMachineModel)
    (planDiags : list Diagnostic) (keys : result (list SshKey))
    (rent : rentCall) (ids : RentInstanceResponseProto)
    (id : string) (rest : list string)
    (pre : list selectCase) (ev : selectCase) (tail : list selectCase) :
  rentReturns plan planDiags keys rent ids ->
  InstanceIds ids = id :: rest ->
  Forall (fun ev => keepsPolling id ev = true) pre ->
  ev = provisioningTimeout \/ (exists err, ev = ctxDone err) ->
  exists resp m,
    Create plan planDiags keys rent (pre ++ ev :: tail)
    = Returned resp (length pre + 1)
    /\ HasError (Diagnostics resp) = true
    /\ State resp = Some m
    /\ ID m = StringValue id
    /\ (pre = [] -> m = setID plan id).
Proof.
  intros Hrent Hids Hpre Hev.
  rewrite (Create_enters_loop _ _ _ _ ids id rest) by done.
  rewrite createLoop_keeps_polling by done.
  replace (length pre + 1)%nat with (S (0 + length pre)) by lia.
  assert (Hid : forall snap, lastFetched id pre None = Some snap -> Id snap = id).
  { intros snap. by apply lastFetched_Id. }
  assert (Hnil : pre = [] -> lastFetched id pre None = None) by by intros ->.
  destruct (lastFetched id pre None) as [snap|];
    destruct Hev as [->|[err ->]];
    cbn [createLoop mergeLast populateModelFromInstanceResponse fst].
  - eexists _, _. split_and!; [reflexivity| |reflexivity| |].
    + apply HasError_AddError.
    + simpl. by rewrite (Hid snap eq_refl).
    + intros Hpre0. by specialize (Hnil Hpre0).
  - eexists _, _. split_and!; [reflexivity| |reflexivity| |].
    + apply HasError_AddError.
    + simpl. by rewrite (Hid snap eq_refl).
    + intros Hpre0. by specialize (Hnil Hpre0).
  - eexists _, _. split_and!; [reflexivity| |reflexivity|reflexivity|done].
    apply HasError_AddError.
  - eexists _, _. split_and!; [reflexivity| |reflexivity|reflexivity|done].
    apply HasError_AddError.
Qed.

(** The deadline fires before any poll: the plan with the id is persisted. *)
Lemma create_persists_rented_id_witness :
  exists resp m,
    Create plan0 [] (Ok [key1]) (rentIds ["1"]) ([] ++ provisioningTimeout :: [])
    = Returned resp (length (@nil selectCase) + 1)
    /\ HasError (Diagnostics resp) = true
    /\ State resp = Some m
    /\ ID m = StringValue "1"
    /\ (@nil selectCase = [] -> m = setID plan0 "1").
Proof.
  apply (create_persists_rented_id plan0 [] (Ok [key1]) (rentIds ["1"])
           {| InstanceIds := ["1"] |} "1" []).
  - split; [reflexivity|]. exists [key1], key1. split_and!; reflexivity.
  - reflexivity.
  - constructor.
  - left. reflexivity.
Defined.

(** ** Deleting what is already gone *)

(** C6. When the delete request of an SSH key, or the terminate request of
    an instance, comes back with the NotFound sentinel, the delete
    operation returns with no diagnostic added, so with no error, whatever
    the prior state is, and for an instance without a single round of
    polling. Any other error of the request is reported as an error
    diagnostic whose detail ends with the text of that error, and the
    operation returns then too. *)
Theorem delete_tolerates_not_found (keyState : sshKeyModel)
    (vmState : virtualMachineModel) (stateDiags : list Diagnostic)
    (deleteKey terminate : string -> option error) (err : error)
    (events : list deleteCase) :
  HasError (Append [] stateDiags) = false ->
  (deleteKey (ValueString (sshID keyState)) = Some err ->
     (errors_Is_ErrNotFound err = true ->
        sshKeyResource.Delete keyState stateDiags deleteKey
        = Append [] stateDiags
        /\ HasError (sshKeyResource.Delete keyState stateDiags deleteKey)
           = false)
     /\ (errors_Is_ErrNotFound err = false ->
           sshKeyResource.Delete keyState stateDiags deleteKey
           = AddError (Append [] stateDiags) "Error Delete SSH Key"
               ("Could not delete SSH Key ID " +:+
                ValueString (sshID keyState) +:+ ": " +:+ Error err)
           /\ HasError (sshKeyResource.Delete keyState stateDiags deleteKey)
              = true))
  /\ (terminate (ValueString (ID vmState)) = Some err ->
        (errors_Is_ErrNotFound err = true ->
           Delete vmState stateDiags terminate events
           = Some (Append [] stateDiags, 0%nat))
        /\ (errors_Is_ErrNotFound err = false ->
              Delete vmState stateDiags terminate events
              = Some (AddError (Append [] stateDiags)
                        "Error Delete Virtual Machine"
                        ("Could not delete Virtual Machine with ID " +:+
                         ValueString (ID vmState) +:+ ": " +:+ Error err),
                      0%nat)
              /\ HasError
                   (AddError (Append [] stateDiags)
                      "Error Delete Virtual Machine"
                      ("Could not delete Virtual Machine with ID " +:+
                       ValueString (ID vmState) +:+ ": " +:+ Error err))
                 = true)).
Proof.
  intros Hdiags. split.
  - intros Hreq. unfold sshKeyResource.Delete. rewrite Hdiags, Hreq.
    split; intros ->; [done|]. split; [done|]. apply HasError_AddError.
  - intros Hreq. unfold Delete. rewrite Hdiags, Hreq.
    split; intros ->; [done|]. split; [done|]. apply HasError_AddError.
Qed.

(** An SSH key and an instance that were removed behind the provider's
    back: both requests answer with the sentinel. *)
Lemma delete_tolerates_not_found_witness :
  sshKeyResource.Delete sshState1 [] (fun _ => Some ErrNotFound) = []
  /\ Delete state1 [] (fun _ => Some ErrNotFound)
       [deleteTick (Ok [instance1 Active [vm true]])] = Some ([], 0%nat).
Proof.
  pose proof (delete_tolerates_not_found sshState1 state1 []
                (fun _ => Some ErrNotFound) (fun _ => Some ErrNotFound)
                ErrNotFound [deleteTick (Ok [instance1 Active [vm true]])]
                eq_refl) as [Hkey Hvm].
  split.
  - exact (proj1 (proj1 (Hkey eq_refl) eq_refl)).
  - exact (proj1 (Hvm eq_refl) eq_refl).
Defined.

(** ** The fields a read does not get from the server *)

(** C9. A Read that succeeds (the prior state was read without an error
    and the instance was fetched) persists the prior state with the fetched
    instance merged in, and reports no error; the recipe, datacenter,
    ssh_key_id and metadata of the persisted state are those of the prior
    state. More generally, whatever state a Read leaves in its response has
    these four fields as in the prior state. *)
Theorem read_carries_write_only_fields (state : virtualMachineModel)
    (stateDiags : list Diagnostic)
    (listInstances : string -> result (list InstanceAndUsageInfo)) :
  (forall vm,
     HasError (Append [] stateDiags) = false ->
     GetInstance (listInstances (ValueString (ID state)))
       (ValueString (ID state)) = Ok vm ->
     Read state stateDiags listInstances
     = {| State := Some (fst (populateModelFromInstanceResponse state vm));
          Diagnostics := Append [] stateDiags |})
  /\ (forall s',
        State (Read state stateDiags listInstances) = Some s' ->
        Recipe s' = Recipe state /\ Datacenter s' = Datacenter state
        /\ SSHKeyID s' = SSHKeyID state /\ Metadata s' = Metadata state).
Proof.
  split.
  - intros vm Hdiags Hget. unfold Read.
    cbn [respAppend Diagnostics State]. rewrite Hdiags, Hget.
    cbn [populateModelFromInstanceResponse respAppend Diagnostics State Append
         foldl fst].
    by rewrite Hdiags.
  - intros s'. unfold Read. cbn [respAppend Diagnostics State].
    destruct (HasError (Append [] stateDiags)) eqn:Hdiags.
    { by intros [= <-]. }
    destruct (GetInstance _ _) as [vm|err].
    + cbn [populateModelFromInstanceResponse respAppend Diagnostics State
           Append foldl].
      rewrite Hdiags. by intros [= <-].
    + destruct (errors_Is_ErrNotFound err); [done|]. by intros [= <-].
Qed.

Lemma read_carries_write_only_fields_witness :
  Read (setID plan0 "1") [] (fun _ => Ok [instance1 Active [vm true]])
  = {| State := Some state1; Diagnostics := [] |}
  /\ Recipe state1 = StringValue "ubuntu"
  /\ Datacenter state1 = StringValue "us-east-nc-nr-1"
  /\ SSHKeyID state1 = StringValue "1"
  /\ Metadata state1 = None.
Proof.
  pose proof (read_carries_write_only_fields (setID plan0 "1") []
                (fun _ => Ok [instance1 Active [vm true]])) as [Hok Hkeep].
  split.
  - exact (Hok (instance1 Active [vm true]) eq_refl eq_refl).
  - exact (Hkeep state1 eq_refl).
Defined.

(** An instance that the listing still returns after its termination is
    reported as not found. *)
Lemma GetInstance_inactive_is_not_found_witness :
  GetInstance (Ok ([] ++ instance1 Inactive [] :: [])) "1" = Err ErrNotFound.
Proof.
  pose proof (GetInstance_inactive_is_not_found "1"
                ([] ++ instance1 Inactive [] :: [])) as (_ & Hfirst & _).
  exact (proj1 (Hfirst [] (instance1 Inactive []) [] eq_refl
                  ltac:(constructor) eq_refl) eq_refl).
Defined.

(** * Further properties

    ** The transport, for any behaviour of the network *)

Section Transport.
Context {Parsed : Type}.
Variable c : HttpClient.
Variable rt : RoundTripper.
Variable parse : cloudriftapi.Response -> result Parsed.

(** What the retry loop leaves behind, whatever the network does: it made
    at most [n] attempts, slept once before each, with the backoffs in
    order, and a response it returns is the answer to its last attempt;
    without a response it has used up all [n] retries. *)
Lemma retryLoop_trace (req : Request) (n : nat) :
  forall (i : nat) (err : error) (s : NetState),
    exists k,
      (k <= n)%nat
      /\ sent (snd (retryLoop rt req n (backoffAt i) err s)) = (sent s + k)%nat
      /\ slept (snd (retryLoop rt req n (backoffAt i) err s))
         = slept s ++ map backoffAt (seq i k)
      /\ match fst (retryLoop rt req n (backoffAt i) err s) with
         | Ok resp => exists a, (sent s + a + 1 = sent s + k)%nat
                                /\ rt (sent s + a)%nat req = Ok resp
         | Err _ => k = n
         end.
Proof.
  induction n as [|n IH]; intros i err s.
  - exists 0%nat. simpl. split_and!; try done; try lia.
    by rewrite app_nil_r.
  - simpl. destruct (rt (sent s) req) as [resp|e] eqn:Hrt.
    + exists 1%nat. simpl. split_and!; try done; try lia.
      exists 0%nat. split; [lia|]. by rewrite Nat.add_0_r.
    + change (shl1 (backoffAt i)) with (backoffAt (S i)).
      match goal with
      | |- context [retryLoop rt req n _ e ?st] =>
          destruct (IH (S i) e st) as (k & Hk & Hsent & Hslept & Hres);
          set (run := retryLoop rt req n (backoffAt (S i)) e st) in *
      end.
      exists (S k). simpl in *. split_and!.
      * lia.
      * rewrite Hsent. lia.
      * rewrite Hslept. by rewrite <- app_assoc.
      * destruct (fst run) as [resp|e']; [|lia].
        destruct Hres as (a & Ha & Hresp). exists (S a).
        split; [lia|]. rewrite <- Hresp. f_equal. lia.
Qed.

(** X1. The attempts and the sleeps of one request, whatever the network does:
    between one and [1 + retries] attempts, one sleep before each attempt
    but the first, the sleeps being the backoffs in order. A client whose
    retry count is zero or negative makes exactly one attempt and never
    sleeps, and so does any client whose first attempt gets a response. *)
Theorem DoRequest_attempts_and_sleeps (req : Request) (s : NetState) :
  let s' := snd (DoRequestWithApiToken c rt req parse s) in
  (exists k,
     (k <= Z.to_nat (retries c))%nat
     /\ sent s' = (sent s + 1 + k)%nat
     /\ slept s' = slept s ++ backoffs k)
  /\ (retries c <= 0 -> sent s' = (sent s + 1)%nat /\ slept s' = slept s)
  /\ (forall resp, rt (sent s) (withApiKey c req) = Ok resp ->
        sent s' = (sent s + 1)%nat /\ slept s' = slept s).
Proof.
  intros s'.
  assert (Hmain : exists k,
             (k <= Z.to_nat (retries c))%nat
             /\ sent s' = (sent s + 1 + k)%nat
             /\ slept s' = slept s ++ backoffs k
             /\ (forall resp, rt (sent s) (withApiKey c req) = Ok resp ->
                   k = 0%nat)).
  { subst s'. unfold DoRequestWithApiToken, attempt, Do.
    destruct (rt (sent s) (withApiKey c req)) as [resp|e] eqn:Hrt.
    - exists 0%nat. simpl. split_and!; try done; try lia.
      by rewrite app_nil_r.
    - change (1 * Second) with (backoffAt 0).
      match goal with
      | |- context [retryLoop rt ?r ?n _ e ?st] =>
          destruct (retryLoop_trace r n 0 e st) as (k & Hk & Hsent & Hslept & _);
          set (run := retryLoop rt r n (backoffAt 0) e st) in *
      end.
      exists k. destruct run as [[resp|e'] st']; simpl in *;
        split_and!; try done; lia. }
  destruct Hmain as (k & Hk & Hsent & Hslept & Hfirst). split_and!.
  - by exists k.
  - intros Hr. assert (k = 0%nat) as -> by lia.
    split; [lia|]. rewrite Hslept. apply app_nil_r.
  - intros resp Hresp. rewrite (Hfirst resp Hresp) in *.
    split; [lia|]. rewrite Hslept. apply app_nil_r.
Qed.

(** When the first [k] attempts fail at the transport level, [k] is
    within the retry count and attempt [k] gets a response, the request is
    settled by that response. *)
Lemma DoRequest_settled_by_response (req : Request) (s : NetState) (k : nat)
    (resp : cloudriftapi.Response) :
  (k <= Z.to_nat (retries c))%nat ->
  (forall a, (a < k)%nat ->
     exists e, rt (sent s + a)%nat (withApiKey c req) = Err e) ->
  rt (sent s + k)%nat (withApiKey c req) = Ok resp ->
  fst (DoRequestWithApiToken c rt req parse s)
  = classify (withApiKey c req) parse resp.
Proof.
  intros Hk Hfail Hok. unfold DoRequestWithApiToken, attempt, Do.
  destruct k as [|k].
  - rewrite Nat.add_0_r in Hok. by rewrite Hok.
  - destruct (Hfail 0%nat ltac:(lia)) as [e0 He0].
    rewrite Nat.add_0_r in He0. rewrite He0.
    change (1 * Second) with (backoffAt 0).
    rewrite (retryLoop_success rt (withApiKey c req) k
               (Z.to_nat (retries c)) 0 e0 _ resp); simpl; [done|lia| |].
    + intros a Ha. destruct (Hfail (S a) ltac:(lia)) as [e' He'].
      exists e'. rewrite <- He'. f_equal. lia.
    + rewrite <- Hok. f_equal. lia.
Qed.

(** A parsed value is only ever returned for a response that arrived with
    a status in [200, 300) and that the parser accepted. *)
Lemma DoRequest_Ok_inv (req : Request) (s : NetState) (x : Parsed) :
  fst (DoRequestWithApiToken c rt req parse s) = Ok x ->
  exists n resp,
    rt n (withApiKey c req) = Ok resp
    /\ 200 <= StatusCode resp < 300
    /\ parse resp = Ok x.
Proof.
  unfold DoRequestWithApiToken, attempt, Do.
  assert (Hcl : forall resp, classify (withApiKey c req) parse resp = Ok x ->
            200 <= StatusCode resp < 300 /\ parse resp = Ok x).
  { intros resp. unfold classify.
    destruct (200 <=? StatusCode resp) eqn:H1;
      destruct (StatusCode resp <? 300) eqn:H2; simpl;
      try (destruct (StatusCode resp =? StatusNotFound); [discriminate|];
           destruct (Body resp); discriminate).
    intros Hp. split; [|done]. apply Z.leb_le in H1. apply Z.ltb_lt in H2. lia. }
  destruct (rt (sent s) (withApiKey c req)) as [resp|e] eqn:Hrt.
  - simpl. intros Hx. exists (sent s), resp. split; [done|]. by apply Hcl.
  - change (1 * Second) with (backoffAt 0).
    match goal with
    | |- context [retryLoop rt ?r ?n _ e ?st] =>
        destruct (retryLoop_trace r n 0 e st) as (k & _ & _ & _ & Hres);
        set (run := retryLoop rt r n (backoffAt 0) e st) in *
    end.
    destruct run as [[resp|e'] st']; simpl in *; [|discriminate].
    destruct Hres as (a & _ & Hresp). intros Hx.
    exists (S (sent s) + a)%nat, resp. split; [done|]. by apply Hcl.
Qed.

End Transport.

(** ** Deleting through the transport *)

Section Classify.
Context {Parsed : Type}.
Variable req : Request.
Variable parse : cloudriftapi.Response -> result Parsed.

Lemma classify_not_found (resp : cloudriftapi.Response) :
  StatusCode resp = 404 -> classify req parse resp = Err ErrNotFound.
Proof. intros H. unfold classify. by rewrite H. Qed.

Lemma classify_success (resp : cloudriftapi.Response) :
  200 <= StatusCode resp < 300 -> classify req parse resp = parse resp.
Proof.
  intros [H1 H2]. unfold classify.
  apply Z.leb_le in H1. apply Z.ltb_lt in H2. by rewrite H1, H2.
Qed.

Lemma classify_failure (resp : cloudriftapi.Response) (body : string) :
  ~ (200 <= StatusCode resp < 300) -> StatusCode resp <> 404 ->
  Body resp = Ok body ->
  classify req parse resp
  = Err (errorString ("request " +:+ URL req +:+ " failed: " +:+
                      cloudriftapi.Status resp +:+ ": body: " +:+ body)).
Proof.
  intros Hout Hnf Hbody. unfold classify.
  destruct (200 <=? StatusCode resp) eqn:H1;
    destruct (StatusCode resp <? 300) eqn:H2; simpl.
  { apply Z.leb_le in H1. apply Z.ltb_lt in H2. lia. }
  all: destruct (Z.eqb_spec (StatusCode resp) StatusNotFound) as [E|_];
    [by apply Hnf in E | by rewrite Hbody].
Qed.

End Classify.

(** X2. Deleting an SSH key, from the resource down to the wire. Let the
    request be built and, after transport failures within the retry count,
    answered. A 404 answer, like an answer with a success status that the
    parser accepts, makes the delete return with no diagnostic added; an
    answer with another status whose body can be read makes it report an
    error that quotes the URL, the status line and the body. *)
Theorem sshKey_delete_through_transport {Parsed : Type} (c : HttpClient)
    (rt : RoundTripper)
    (NewDeleteSshKeyRequest : string -> string -> result Request)
    (parse : cloudriftapi.Response -> result Parsed)
    (state : sshKeyModel) (stateDiags : list Diagnostic)
    (req : Request) (resp : cloudriftapi.Response) (s : NetState) (k : nat) :
  HasError (Append [] stateDiags) = false ->
  NewDeleteSshKeyRequest (HostURL c) (ValueString (sshID state)) = Ok req ->
  (k <= Z.to_nat (retries c))%nat ->
  (forall a, (a < k)%nat ->
     exists e, rt (sent s + a)%nat (withApiKey c req) = Err e) ->
  rt (sent s + k)%nat (withApiKey c req) = Ok resp ->
  let deleteKey :=
    fun id => fst (DeleteSSHKey rt c NewDeleteSshKeyRequest parse id s) in
  (StatusCode resp = 404 ->
     sshKeyResource.Delete state stateDiags deleteKey = Append [] stateDiags)
  /\ (forall x, 200 <= StatusCode resp < 300 -> parse resp = Ok x ->
        sshKeyResource.Delete state stateDiags deleteKey
        = Append [] stateDiags)
  /\ (forall body,
        ~ (200 <= StatusCode resp < 300) -> StatusCode resp <> 404 ->
        Body resp = Ok body ->
        sshKeyResource.Delete state stateDiags deleteKey
        = AddError (Append [] stateDiags) "Error Delete SSH Key"
            ("Could not delete SSH Key ID " +:+ ValueString (sshID state)
             +:+ ": " +:+ "request " +:+ URL req +:+ " failed: " +:+
             cloudriftapi.Status resp +:+ ": body: " +:+ body)).
Proof.
  intros Hdiags Hreq Hk Hfail Hok deleteKey.
  pose proof (DoRequest_settled_by_response c rt parse req s k resp
                Hk Hfail Hok) as Hdo.
  assert (Hcall : deleteKey (ValueString (sshID state))
                  = match classify (withApiKey c req) parse resp with
                    | Ok _ => None
                    | Err e => Some e
                    end).
  { subst deleteKey. unfold DeleteSSHKey. rewrite Hreq.
    destruct (DoRequestWithApiToken c rt req parse s) as [r s'].
    simpl in Hdo. rewrite Hdo. by destruct (classify _ _ _). }
  unfold sshKeyResource.Delete. rewrite Hdiags, Hcall. split_and!.
  - intros H404. by rewrite classify_not_found.
  - intros x H2xx Hx. by rewrite classify_success, Hx.
  - intros body Hout Hnf Hbody.
    by rewrite (classify_failure _ _ _ body Hout Hnf Hbody).
Qed.

(** X3. Terminating an instance, from the resource down to the wire. With the
    terminate request built and, after transport failures within the retry
    count, answered: a 404 answer ends the delete at once, with no
    diagnostic added and without a round of polling; an answer with a
    success status that the parser accepts starts the poll loop. *)
Theorem instance_delete_through_transport {Parsed : Type} (c : HttpClient)
    (rt : RoundTripper)
    (NewTerminateInstancesRequest :
       string -> string -> list string -> result Request)
    (parse : cloudriftapi.Response -> result Parsed)
    (state : virtualMachineModel) (stateDiags : list Diagnostic)
    (events : list deleteCase)
    (req : Request) (resp : cloudriftapi.Response) (s : NetState) (k : nat) :
  HasError (Append [] stateDiags) = false ->
  NewTerminateInstancesRequest (HostURL c) (ProtoVersion c)
    [ValueString (ID state)] = Ok req ->
  (k <= Z.to_nat (retries c))%nat ->
  (forall a, (a < k)%nat ->
     exists e, rt (sent s + a)%nat (withApiKey c req) = Err e) ->
  rt (sent s + k)%nat (withApiKey c req) = Ok resp ->
  let terminate :=
    fun id =>
      fst (TerminateInstance rt c NewTerminateInstancesRequest parse id s) in
  (StatusCode resp = 404 ->
     Delete state stateDiags terminate events
     = Some (Append [] stateDiags, 0%nat))
  /\ (forall x, 200 <= StatusCode resp < 300 -> parse resp = Ok x ->
        Delete state stateDiags terminate events
        = deleteLoop (ValueString (ID state)) (Append [] stateDiags) events 0).
Proof.
  intros Hdiags Hreq Hk Hfail Hok terminate.
  pose proof (DoRequest_settled_by_response c rt parse req s k resp
                Hk Hfail Hok) as Hdo.
  assert (Hcall : terminate (ValueString (ID state))
                  = match classify (withApiKey c req) parse resp with
                    | Ok _ => None
                    | Err e => Some e
                    end).
  { subst terminate. unfold TerminateInstance. rewrite Hreq.
    destruct (DoRequestWithApiToken c rt req parse s) as [r s'].
    simpl in Hdo. rewrite Hdo. by destruct (classify _ _ _). }
  unfold Delete. rewrite Hdiags, Hcall. split.
  - intros H404. by rewrite classify_not_found.
  - intros x H2xx Hx. by rewrite classify_success, Hx.
Qed.

(** ** The delete loop *)

(** A listing in which every instance with the id is Inactive makes the
    lookup answer not found. *)
Lemma GetInstance_all_inactive (id : string)
    (instances : list InstanceAndUsageInfo) :
  Forall (fun i => Id i <> id \/ instStatus i = Inactive) instances ->
  GetInstance (Ok instances) id = Err ErrNotFound.
Proof.
  simpl. induction 1 as [|i l Hi _ IH]; [done|]. simpl.
  destruct (decide (Id i = id)) as [Hid|Hid]; [|done].
  destruct Hi as [Hne|Hin]; [done|]. by rewrite decide_True.
Qed.

Section DeleteLoop.
Variable id : string.
Variable diags : list Diagnostic.

Lemma deleteLoop_still_there (pre : list deleteCase) :
  forall (evs : list deleteCase) (n : nat),
    Forall (fun ev => stillThere id ev = true) pre ->
    deleteLoop id diags (pre ++ evs) n
    = deleteLoop id diags evs (n + length pre).
Proof.
  induction pre as [|ev pre IH]; intros evs n Hpre.
  - simpl. by rewrite Nat.add_0_r.
  - apply Forall_cons in Hpre as [Hev Hpre].
    destruct ev as [err|listing]; [discriminate|].
    unfold stillThere in Hev. rewrite <- app_comm_cons. cbn [deleteLoop].
    destruct (GetInstance listing id) as [i|e]; [|discriminate].
    rewrite IH by done. f_equal. simpl. lia.
Qed.

Lemma deleteLoop_success_inv (events : list deleteCase) :
  forall (n m : nat) (d : list Diagnostic),
    deleteLoop id diags events n = Some (d, m) ->
    HasError d = false ->
    exists pre ev tail,
      events = pre ++ ev :: tail
      /\ Forall (fun ev => stillThere id ev = true) pre
      /\ goneTick id ev = true
      /\ m = (n + length pre + 1)%nat /\ d = diags.
Proof.
  induction events as [|ev events IH]; intros n m d Hrun Hok; [discriminate|].
  destruct ev as [err|listing]; cbn [deleteLoop] in Hrun.
  - injection Hrun as <- <-. by rewrite HasError_AddError in Hok.
  - destruct (GetInstance listing id) as [i|e] eqn:Hget.
    + destruct (IH _ _ _ Hrun Hok) as (pre & ev & tail & -> & Hpre & Hev & -> & ->).
      exists (deleteTick listing :: pre), ev, tail.
      split_and!; try done; [|simpl; lia].
      apply Forall_cons. split; [|done]. unfold stillThere. by rewrite Hget.
    + destruct (errors_Is_ErrNotFound e) eqn:Hnf.
      * injection Hrun as <- <-. exists [], (deleteTick listing), events.
        split_and!; try done; [|simpl; lia].
        unfold goneTick. by rewrite Hget.
      * injection Hrun as <- <-. by rewrite HasError_AddError in Hok.
Qed.

End DeleteLoop.

(** X4. Deleting an instance whose terminate request went through. As long as
    the instance is still returned on every tick the delete keeps waiting,
    for any number of ticks: it has no deadline of its own. It returns,
    with no diagnostic added, at the first tick on which the lookup answers
    not found, which is so in particular when the listing holds the
    instance only as Inactive or not at all. A cancellation makes it return
    with an error. And it never returns without an error unless a tick
    found the instance gone. *)
Theorem delete_polls_until_gone (state : virtualMachineModel)
    (stateDiags : list Diagnostic) (terminate : string -> option error)
    (pre : list deleteCase) :
  let id := ValueString (ID state) in
  HasError (Append [] stateDiags) = false ->
  terminate id = None ->
  Forall (fun ev => stillThere id ev = true) pre ->
  Delete state stateDiags terminate pre = None
  /\ (forall ev tail, goneTick id ev = true ->
        Delete state stateDiags terminate (pre ++ ev :: tail)
        = Some (Append [] stateDiags, (length pre + 1)%nat))
  /\ (forall instances tail,
        Forall (fun i => Id i <> id \/ instStatus i = Inactive) instances ->
        Delete state stateDiags terminate
          (pre ++ deleteTick (Ok instances) :: tail)
        = Some (Append [] stateDiags, (length pre + 1)%nat))
  /\ (forall err tail,
        Delete state stateDiags terminate (pre ++ deleteCtxDone err :: tail)
        = Some (AddError (Append [] stateDiags) "Polling Interval Canceled"
                  ("Polling interval canceled before finished waiting on instance destruction: "
                   +:+ Error err),
                (length pre + 1)%nat))
  /\ (forall events d m,
        Delete state stateDiags terminate events = Some (d, m) ->
        HasError d = false ->
        exists pre' ev tail,
          events = pre' ++ ev :: tail
          /\ Forall (fun ev => stillThere id ev = true) pre'
          /\ goneTick id ev = true).
Proof.
  intros id Hdiags Hterm Hpre.
  assert (Hdel : forall events,
            Delete state stateDiags terminate events
            = deleteLoop id (Append [] stateDiags) events 0).
  { intros events. unfold Delete. fold id. by rewrite Hdiags, Hterm. }
  assert (Hgone : forall ev tail, goneTick id ev = true ->
            Delete state stateDiags terminate (pre ++ ev :: tail)
            = Some (Append [] stateDiags, (length pre + 1)%nat)).
  { intros ev tail Hev. rewrite Hdel, deleteLoop_still_there by done.
    destruct ev as [err|listing]; [discriminate|].
    unfold goneTick in Hev. cbn [deleteLoop].
    destruct (GetInstance listing id) as [i|e]; [discriminate|].
    rewrite Hev. do 2 f_equal. simpl. lia. }
  split_and!.
  - rewrite Hdel. rewrite <- (app_nil_r pre).
    by rewrite deleteLoop_still_there.
  - done.
  - intros instances tail Hall. apply Hgone. unfold goneTick.
    by rewrite GetInstance_all_inactive.
  - intros err tail. rewrite Hdel, deleteLoop_still_there by done.
    cbn [deleteLoop]. do 2 f_equal. simpl. lia.
  - intros events d m Hrun Hok. rewrite Hdel in Hrun.
    destruct (deleteLoop_success_inv id _ events 0 m d Hrun Hok)
      as (pre' & ev & tail & ? & ? & ? & _).
    by exists pre', ev, tail.
Qed.

(** ** What a refresh does to the cache *)

Section CacheEntries.
Variable unicodeToLower : string -> string.
Variable ListRecipes : nat -> result (option ListRecipesResponseProto).

Local Abbreviation lower := (ToLower unicodeToLower).
Local Abbreviation store := (cacheRecipe unicodeToLower).

Lemma cacheRecipe_origin (m : gmap string RecipeDetails1) (r : cloudriftapi.Recipe)
    (k : string) (d : RecipeDetails1) :
  store m r !! k = Some d ->
  m !! k = Some d
  \/ (recipeDetails r = Some d /\ d <> emptyDetails /\ k = lower (recipeName r)).
Proof.
  unfold cacheRecipe. destruct (recipeDetails r) as [dr|]; [|by left].
  destruct (decide (dr <> emptyDetails)) as [Hne|]; [|by left].
  destruct (decide (lower (recipeName r) = k)) as [<-|Hk].
  - rewrite lookup_insert_eq. intros [= <-]. by right.
  - rewrite lookup_insert_ne by done. by left.
Qed.

Lemma cacheRecipe_keeps (m : gmap string RecipeDetails1) (r : cloudriftapi.Recipe)
    (k : string) :
  is_Some (m !! k) -> is_Some (store m r !! k).
Proof.
  intros Hk. unfold cacheRecipe. destruct (recipeDetails r) as [dr|]; [|done].
  destruct (decide (dr <> emptyDetails)); [|done].
  destruct (decide (lower (recipeName r) = k)) as [<-|Hne].
  - rewrite lookup_insert_eq. by eexists.
  - by rewrite lookup_insert_ne.
Qed.

Lemma cacheRecipes_origin (rs : list cloudriftapi.Recipe) :
  forall (m : gmap string RecipeDetails1) (k : string) (d : RecipeDetails1),
    foldl store m rs !! k = Some d ->
    m !! k = Some d
    \/ exists r, r ∈ rs /\ recipeDetails r = Some d /\ d <> emptyDetails
                 /\ k = lower (recipeName r).
Proof.
  induction rs as [|r rs IH]; intros m k d; simpl; [by left|].
  intros Hl. destruct (IH _ _ _ Hl) as [Hm|(r' & Hin & ?)].
  - destruct (cacheRecipe_origin _ _ _ _ Hm) as [?|?]; [by left|].
    right. exists r. split; [apply list_elem_of_here | done].
  - right. exists r'. split; [by apply list_elem_of_further | done].
Qed.

Lemma cacheRecipes_keeps (rs : list cloudriftapi.Recipe) :
  forall (m : gmap string RecipeDetails1) (k : string),
    is_Some (m !! k) -> is_Some (foldl store m rs !! k).
Proof.
  induction rs as [|r rs IH]; intros m k Hk; simpl; [done|].
  apply IH. by apply cacheRecipe_keeps.
Qed.

(** X5. The cache after a refresh, whatever the listing call did. Every entry
    was there before, or holds the details of a recipe of the listing,
    usable and stored under the lower-cased name of that recipe; no name
    that was cached is lost; details equal to the zero value never get in;
    and a refresh that fails leaves the cache as it was. *)
Theorem refresh_cache_entries (st : ClientState) :
  let st' := snd (refreshVMRecipeCache unicodeToLower ListRecipes st) in
  (forall k d, vmRecipies st' !! k = Some d ->
     vmRecipies st !! k = Some d
     \/ exists groups r,
          ListRecipes (listed st) = Ok (Some groups)
          /\ r ∈ listedRecipes groups
          /\ recipeDetails r = Some d /\ d <> emptyDetails
          /\ k = lower (recipeName r))
  /\ (forall k, is_Some (vmRecipies st !! k) -> is_Some (vmRecipies st' !! k))
  /\ ((forall k d, vmRecipies st !! k = Some d -> d <> emptyDetails) ->
      forall k d, vmRecipies st' !! k = Some d -> d <> emptyDetails)
  /\ (fst (refreshVMRecipeCache unicodeToLower ListRecipes st) <> None ->
      vmRecipies st' = vmRecipies st).
Proof.
  intros st'.
  assert (Horigin : forall k d, vmRecipies st' !! k = Some d ->
            vmRecipies st !! k = Some d
            \/ exists groups r,
                 ListRecipes (listed st) = Ok (Some groups)
                 /\ r ∈ listedRecipes groups
                 /\ recipeDetails r = Some d /\ d <> emptyDetails
                 /\ k = lower (recipeName r)).
  { subst st'. unfold refreshVMRecipeCache.
    destruct (ListRecipes (listed st)) as [[groups|]|err]; simpl;
      try (intros k d Hl; by left).
    intros k d Hl. rewrite cacheGroups_listedRecipes in Hl.
    destruct (cacheRecipes_origin _ _ _ _ Hl) as [?|(r & ? & ?)]; [by left|].
    right. by exists groups, r. }
  split_and!.
  - done.
  - subst st'. unfold refreshVMRecipeCache.
    destruct (ListRecipes (listed st)) as [[groups|]|err]; simpl; try done.
    intros k Hk. rewrite cacheGroups_listedRecipes.
    by apply cacheRecipes_keeps.
  - intros Hinv k d Hl.
    destruct (Horigin k d Hl) as [Hold|(groups & r & _ & _ & _ & Hne & _)];
      [by apply (Hinv k)|done].
  - subst st'. unfold refreshVMRecipeCache.
    by destruct (ListRecipes (listed st)) as [[groups|]|err].
Qed.

(** A listing stored into an empty cache leaves it empty exactly when no
    recipe of the listing is usable. *)
Lemma cacheGroups_empty (groups : ListRecipesResponseProto) :
  cacheGroups unicodeToLower ∅ groups = ∅
  <-> Forall (fun r => usable r = false) (listedRecipes groups).
Proof.
  rewrite cacheGroups_listedRecipes. split.
  - intros Hempty. apply Forall_forall. intros r Hin.
    unfold usable. destruct (recipeDetails r) as [d|] eqn:Hd; [|done].
    apply bool_decide_eq_false. intros Hne.
    destruct (cacheRecipe_registered unicodeToLower (listedRecipes groups)
                ∅ r d Hin Hd Hne) as (r' & d' & _ & _ & _ & _ & Hl).
    by rewrite Hempty, lookup_empty in Hl.
  - intros Hnone. apply map_eq. intros k. rewrite lookup_empty.
    destruct (foldl store ∅ (listedRecipes groups) !! k) as [d|] eqn:Hl;
      [|done].
    destruct (cacheRecipes_origin _ _ _ _ Hl) as [Hm|(r & Hin & Hd & Hne & _)].
    + by rewrite lookup_empty in Hm.
    + rewrite Forall_forall in Hnone. specialize (Hnone r Hin).
      unfold usable in Hnone. rewrite Hd in Hnone.
      by apply bool_decide_eq_false in Hnone.
Qed.

End CacheEntries.

(** ** Construction of the client *)

Lemma length_append_slash (s : string) :
  String.length (s +:+ "/") = S (String.length s).
Proof. induction s as [|a s IH]; simpl; [done|]. by rewrite IH. Qed.

Lemma substring_last_slash (s : string) :
  String.substring (String.length s) 1 (s +:+ "/") = "/".
Proof. induction s as [|a s IH]; simpl; [done|]. apply IH. Qed.

Lemma HasSuffix_append_slash (s : string) : HasSuffix (s +:+ "/") "/" = true.
Proof.
  unfold HasSuffix. rewrite length_append_slash. simpl.
  rewrite Nat.sub_0_r, substring_last_slash. by rewrite bool_decide_eq_true_2.
Qed.

(** The retry options applied in order: the last one decides the retry
    count, and nothing else of the client changes. *)
Lemma foldl_WithRetryableHttpClient (ns : list Z) :
  forall c : HttpClient,
    let c' := foldl (fun c (o : HttpClientOption) => o c) c
                (map WithRetryableHttpClient ns) in
    HostURL c' = HostURL c /\ Token c' = Token c
    /\ ProtoVersion c' = ProtoVersion c
    /\ retries c' = default (retries c) (last ns).
Proof.
  induction ns as [|n ns IH] using rev_ind; intros c; [done|].
  rewrite map_app, foldl_app, last_snoc. simpl.
  destruct (IH c) as (? & ? & ? & _). by split_and!.
Qed.

(** X6. The client [NewCustom] works with. Whatever the options do, its server
    URL ends with a slash. With retry options only: the URL is the endpoint
    given, or the default endpoint when none is given, with a slash added
    unless it ends with one already; the token is the one given; the
    protocol version is the one given, or the default when none is given;
    and the retry count is that of the last option, or zero without one. *)
Theorem prepare_client (endpoint token protoVersion : string) :
  (forall opts,
     HasSuffix (HostURL (prepare endpoint token protoVersion opts)) "/" = true)
  /\ (forall ns,
        let c := prepare endpoint token protoVersion
                   (map WithRetryableHttpClient ns) in
        let base := if decide (endpoint = "") then Endpoint else endpoint in
        HostURL c = (if HasSuffix base "/" then base else base +:+ "/")
        /\ Token c = token
        /\ ProtoVersion c
           = (if decide (protoVersion = "") then Proto20250610
              else protoVersion)
        /\ retries c = default 0 (last ns)).
Proof.
  split.
  - intros opts. unfold prepare.
    set (c0 := foldl _ _ opts).
    set (c1 := if decide (endpoint = "") then setHostURL c0 Endpoint else c0).
    assert (Hslash :
      HasSuffix (HostURL (if negb (HasSuffix (HostURL c1) "/")
                          then setHostURL c1 (HostURL c1 +:+ "/") else c1))
        "/" = true).
    { destruct (HasSuffix (HostURL c1) "/") eqn:Hs; simpl; [done|].
      apply HasSuffix_append_slash. }
    by destruct (decide (protoVersion = "")).
  - intros ns c base. subst c. unfold prepare.
    destruct (foldl_WithRetryableHttpClient ns
                {| HostURL := endpoint; Token := token; retries := 0;
                   ProtoVersion := protoVersion |}) as (Hu & Ht & Hp & Hr).
    simpl in *. set (c0 := foldl _ _ _) in *.
    subst base.
    destruct (decide (endpoint = "")) as [He|He];
      destruct (decide (protoVersion = "")) as [Hv|Hv]; simpl;
      try rewrite Hu;
      repeat match goal with
             | |- context [HasSuffix ?u "/"] =>
                 destruct (HasSuffix u "/"); simpl
             end;
      by split_and!.
Qed.

Section NewClient.
Variable unicodeToLower : string -> string.
Variable ListRecipes : nat -> result (option ListRecipesResponseProto).
Variable rt : RoundTripper.
Variable NewRequest : string -> string -> result Request.
Variable parseAuth : cloudriftapi.Response -> result string.

Local Abbreviation new :=
  (NewCustom unicodeToLower ListRecipes rt NewRequest parseAuth).

(** [Auth] lets a client through only on a response with a success status
    whose parsed email is not empty. *)
Lemma Auth_None_inv (c : HttpClient) (s s' : NetState) :
  Auth rt NewRequest parseAuth c s = (None, s') ->
  exists req n resp email,
    NewRequest "POST" (HostURL c +:+ "api/v1/auth/me") = Ok req
    /\ rt n (withApiKey c req) = Ok resp
    /\ 200 <= StatusCode resp < 300
    /\ parseAuth resp = Ok email /\ email <> "".
Proof.
  unfold Auth. destruct (NewRequest _ _) as [req|e] eqn:Hreq; [|discriminate].
  destruct (DoRequestWithApiToken c rt req parseAuth s) as [[email|e] s1]
    eqn:Hdo; [|discriminate].
  destruct (decide (email = "")) as [|Hne]; [discriminate|]. intros _.
  destruct (DoRequest_Ok_inv c rt parseAuth req s email)
    as (n & resp & ? & ? & ?).
  { by rewrite Hdo. }
  exists req, n, resp, email. split_and!; try done; lia.
Qed.

(** X7. A client is handed out only to an authenticated caller and only with
    recipes to rent: when [NewCustom] returns a client, the auth request was
    answered with a success status and a non-empty email, the recipes were
    listed exactly once, the listing holds a usable recipe, and the cache
    of the client is this listing stored into an empty cache, so it is not
    empty. *)
Theorem NewCustom_client_is_authenticated (endpoint token protoVersion : string)
    (opts : list HttpClientOption) (s s' : NetState)
    (c : HttpClient) (st : ClientState) :
  new endpoint token protoVersion opts s = (Ok (c, st), s') ->
  c = prepare endpoint token protoVersion opts
  /\ (exists req n resp email,
        NewRequest "POST" (HostURL c +:+ "api/v1/auth/me") = Ok req
        /\ rt n (withApiKey c req) = Ok resp
        /\ 200 <= StatusCode resp < 300
        /\ parseAuth resp = Ok email /\ email <> "")
  /\ listed st = 1%nat
  /\ vmRecipies st <> ∅
  /\ exists groups r,
       ListRecipes 0 = Ok (Some groups)
       /\ vmRecipies st = cacheGroups unicodeToLower ∅ groups
       /\ r ∈ listedRecipes groups /\ usable r = true.
Proof.
  unfold NewCustom.
  destruct (Auth rt NewRequest parseAuth _ s) as [[e|] s1] eqn:Hauth;
    [discriminate|].
  unfold refreshVMRecipeCache. simpl.
  destruct (ListRecipes 0) as [[groups|]|e] eqn:Hlist; try discriminate.
  simpl. destruct (decide (size _ = 0%nat)) as [|Hsize]; [discriminate|].
  intros [= <- <- <-].
  assert (Hne : cacheGroups unicodeToLower ∅ groups <> ∅).
  { intros Hempty. apply Hsize. rewrite Hempty. apply map_size_empty. }
  split_and!; try done.
  - by apply Auth_None_inv in Hauth.
  - destruct (map_choose _ Hne) as (k & d & Hl).
    rewrite cacheGroups_listedRecipes in Hl.
    destruct (cacheRecipes_origin unicodeToLower _ _ _ _ Hl)
      as [Hm|(r & Hin & Hd & Hdne & _)].
    { by rewrite lookup_empty in Hm. }
    exists groups, r. split_and!; try done.
    unfold usable. rewrite Hd. by apply bool_decide_eq_true.
Qed.

(** X8. With the caller authenticated and the recipes listed, [NewCustom]
    fails with "no recipes for VMs found" when no recipe of the listing is
    usable, and otherwise returns the prepared client with the listing
    cached. *)
Theorem NewCustom_needs_usable_recipe (endpoint token protoVersion : string)
    (opts : list HttpClientOption) (s s' : NetState)
    (groups : ListRecipesResponseProto) :
  Auth rt NewRequest parseAuth (prepare endpoint token protoVersion opts) s
  = (None, s') ->
  ListRecipes 0 = Ok (Some groups) ->
  (Forall (fun r => usable r = false) (listedRecipes groups) ->
     new endpoint token protoVersion opts s
     = (Err (errorString "no recipes for VMs found"), s'))
  /\ (forall r, r ∈ listedRecipes groups -> usable r = true ->
        new endpoint token protoVersion opts s
        = (Ok (prepare endpoint token protoVersion opts,
               {| vmRecipies := cacheGroups unicodeToLower ∅ groups;
                  listed := 1 |}), s')).
Proof.
  intros Hauth Hlist. unfold NewCustom. rewrite Hauth.
  unfold refreshVMRecipeCache. simpl. rewrite Hlist. simpl. split.
  - intros Hnone.
    apply (proj2 (cacheGroups_empty unicodeToLower groups)) in Hnone.
    rewrite Hnone. by rewrite decide_True by apply map_size_empty.
  - intros r Hin Hr. rewrite decide_False; [done|].
    intros Hsize. apply map_size_empty_iff in Hsize.
    apply (proj1 (cacheGroups_empty unicodeToLower groups)) in Hsize.
    rewrite Forall_forall in Hsize.
    specialize (Hsize r Hin). congruence.
Qed.

End NewClient.

(** ** Renting: what is checked, and what a success means *)

Section RentChecks.
Variable unicodeToLower : string -> string.
Variable base64Decode : string -> result string.
Variable TrimSpace : string -> string.
Variable ListRecipes : nat -> result (option ListRecipesResponseProto).
Variable postRent :
  RentInstanceRequestProto -> result (option RentInstanceResponseProto).
Variable c : HttpClient.

Local Abbreviation lower := (ToLower unicodeToLower).
Local Abbreviation rent :=
  (RentPublicInstanceVM unicodeToLower base64Decode TrimSpace ListRecipes
     postRent c).

(** X9. Arguments that do not pass the checks of [RentPublicInstanceVM] are
    turned down before anything else happens: the client state comes back
    as it was, so no recipe was listed, and the error is that of the first
    check that fails, in the order recipe, keys, datacenter, instance type,
    startup commands. *)
Theorem rent_rejects_bad_arguments
    (recipe datacenter instance commands : string) (pubKeys : list string)
    (st : ClientState) :
  (recipe = "" ->
     rent recipe datacenter instance commands pubKeys st
     = (Err (errorString "no image specified"), st))
  /\ (recipe <> "" -> pubKeys = [] \/ "" ∈ pubKeys ->
        rent recipe datacenter instance commands pubKeys st
        = (Err (errorString "no ssh key specified"), st))
  /\ (recipe <> "" -> pubKeys <> [] -> "" ∉ pubKeys -> datacenter = "" ->
        rent recipe datacenter instance commands pubKeys st
        = (Err (errorString "empty datacenter"), st))
  /\ (recipe <> "" -> pubKeys <> [] -> "" ∉ pubKeys -> datacenter <> "" ->
        instance = "" ->
        rent recipe datacenter instance commands pubKeys st
        = (Err (errorString "empty instance"), st))
  /\ (forall err,
        recipe <> "" -> pubKeys <> [] -> "" ∉ pubKeys -> datacenter <> "" ->
        instance <> "" -> commands <> "" ->
        base64Decode commands = Err err ->
        rent recipe datacenter instance commands pubKeys st
        = (Err (wrapError
                  ("failed to decode base64 encoded startup commands: " +:+
                   Error err) err), st)).
Proof.
  assert (Hkeys : pubKeys <> [] -> "" ∉ pubKeys ->
            ~ (length pubKeys = 0%nat \/ "" ∈ pubKeys)).
  { intros Hne Hnot [Hl|Hin]; [by destruct pubKeys | done]. }
  unfold RentPublicInstanceVM. split_and!.
  - intros ->. by rewrite decide_True.
  - intros Hr Hk. rewrite decide_False by done.
    rewrite decide_True; [done|]. destruct Hk as [->|Hin]; [by left|by right].
  - intros Hr Hk1 Hk2 ->. rewrite decide_False by done.
    rewrite decide_False by (by apply Hkeys). by rewrite decide_True.
  - intros Hr Hk1 Hk2 Hd ->. rewrite decide_False by done.
    rewrite decide_False by (by apply Hkeys).
    rewrite decide_False by done. by rewrite decide_True.
  - intros err Hr Hk1 Hk2 Hd Hi Hc Hdec. rewrite decide_False by done.
    rewrite decide_False by (by apply Hkeys).
    rewrite !decide_False by done. rewrite decide_True by done.
    by rewrite Hdec.
Qed.

(** X10. What a successful rent call stands for: the arguments passed every
    check, the startup commands sent are the decoded and trimmed ones (or
    none), the recipe is cached under its lower-cased name when the call
    returns, at most one refresh was run to get it there, and the server
    answered, with the payload returned, the request built from the cached
    details. *)
Theorem rent_success_inv
    (recipe datacenter instance commands : string) (pubKeys : list string)
    (st st' : ClientState) (json200 : RentInstanceResponseProto) :
  rent recipe datacenter instance commands pubKeys st = (Ok json200, st') ->
  recipe <> "" /\ pubKeys <> [] /\ ("" ∉ pubKeys)
  /\ datacenter <> "" /\ instance <> ""
  /\ (listed st' <= S (listed st))%nat
  /\ exists cmds details,
       ((commands = "" /\ cmds = "")
        \/ (commands <> "" /\
            exists raw, base64Decode commands = Ok raw /\ cmds = TrimSpace raw))
       /\ vmRecipies st' !! lower recipe = Some details
       /\ postRent (rentRequest c details datacenter instance cmds pubKeys)
          = Ok (Some json200).
Proof.
  unfold RentPublicInstanceVM.
  destruct (decide (recipe = "")) as [|Hr]; [discriminate|].
  destruct (decide (length pubKeys = 0%nat \/ "" ∈ pubKeys)) as [|Hk];
    [discriminate|].
  destruct (decide (datacenter = "")) as [|Hd]; [discriminate|].
  destruct (decide (instance = "")) as [|Hi]; [discriminate|].
  assert (Hfind : forall cmds,
    match findVMRecipe unicodeToLower ListRecipes (lower recipe) st with
    | (Err err, st0) =>
        (Err (wrapError ("failed to find the requested recipe " +:+
                         lower recipe +:+ ": " +:+ Error err) err), st0)
    | (Ok details, st0) =>
        (rentResponse
           (postRent (rentRequest c details datacenter instance cmds pubKeys)),
         st0)
    end = (Ok json200, st') ->
    (listed st' <= S (listed st))%nat
    /\ exists details,
         vmRecipies st' !! lower recipe = Some details
         /\ postRent (rentRequest c details datacenter instance cmds pubKeys)
            = Ok (Some json200)).
  { intros cmds. unfold findVMRecipe.
    destruct (vmRecipies st !! lower recipe) as [found|] eqn:Hhit.
    - intros [= Hpost <-]. split; [lia|]. exists found. split; [done|].
      destruct (postRent _) as [[r|]|e]; simpl in Hpost; try discriminate.
      by injection Hpost as ->.
    - pose proof (refreshVMRecipeCache_listed unicodeToLower ListRecipes st)
        as Hl.
      destruct (refreshVMRecipeCache unicodeToLower ListRecipes st)
        as [[e|] st1]; simpl in Hl; [discriminate|].
      destruct (vmRecipies st1 !! lower recipe) as [found|] eqn:Hnow;
        [|discriminate].
      intros [= Hpost <-]. split; [lia|]. exists found. split; [done|].
      destruct (postRent _) as [[r|]|e]; simpl in Hpost; try discriminate.
      by injection Hpost as ->. }
  intros Hrun.
  assert (Hkeys : pubKeys <> [] /\ ("" ∉ pubKeys)).
  { split; [intros ->; apply Hk; by left | intros Hin; apply Hk; by right]. }
  destruct Hkeys as [Hk1 Hk2].
  destruct (decide (commands <> "")) as [Hc|Hc].
  - destruct (base64Decode commands) as [raw|e] eqn:Hdec; [|discriminate].
    destruct (Hfind _ Hrun) as (Hl & details & Hcached & Hpost).
    split_and!; try done. exists (TrimSpace raw), details.
    split_and!; try done. right. split; [done|]. by exists raw.
  - assert (commands = "") as -> by (destruct (decide (commands = "")); tauto).
    destruct (Hfind _ Hrun) as (Hl & details & Hcached & Hpost).
    split_and!; try done. exists "", details.
    split_and!; try done. by left.
Qed.


End RentChecks.

(** ** Reading an instance *)

(** X12. A Read whose prior state was read without an error. When the listing
    holds the instance only as Inactive, or not at all, or the lookup
    fails with the sentinel, the resource is removed from the state and no
    diagnostic is added. When the lookup fails with another error, the
    prior state stays and the error is reported. *)
Theorem read_drops_gone_instance (state : virtualMachineModel)
    (stateDiags : list Diagnostic)
    (listInstances : string -> result (list InstanceAndUsageInfo)) :
  let id := ValueString (ID state) in
  HasError (Append [] stateDiags) = false ->
  (forall instances,
     listInstances id = Ok instances ->
     Forall (fun i => Id i <> id \/ instStatus i = Inactive) instances ->
     Read state stateDiags listInstances
     = {| State := None; Diagnostics := Append [] stateDiags |})
  /\ (forall err,
        listInstances id = Err err -> errors_Is_ErrNotFound err = true ->
        Read state stateDiags listInstances
        = {| State := None; Diagnostics := Append [] stateDiags |})
  /\ (forall err,
        listInstances id = Err err -> errors_Is_ErrNotFound err = false ->
        Read state stateDiags listInstances
        = {| State := Some state;
             Diagnostics :=
               AddError (Append [] stateDiags)
                 "Error reading CloudRift Virtual Machine"
                 ("Cloud not fetch CloudRift Virtual Machine with ID: " +:+ id
                  +:+ " : " +:+ Error err) |}).
Proof.
  intros id Hdiags. unfold Read. fold id.
  cbn [respAppend Diagnostics State]. rewrite Hdiags. split_and!.
  - intros instances -> Hall. by rewrite GetInstance_all_inactive.
  - intros err -> Hnf. simpl. by rewrite Hnf.
  - intros err -> Hnf. simpl. by rewrite Hnf.
Qed.

(** Merging the same snapshot twice is merging it once. *)
Lemma populateModel_idempotent (m : virtualMachineModel)
    (data : InstanceAndUsageInfo) :
  fst (populateModelFromInstanceResponse
         (fst (populateModelFromInstanceResponse m data)) data)
  = fst (populateModelFromInstanceResponse m data).
Proof.
  unfold populateModelFromInstanceResponse. simpl.
  by destruct (HostAddress data), (InternalHostAddress data),
       (instResourceInfo data).
Qed.

(** A Read of a state into which a snapshot was merged, when the lookup
    returns that snapshot again, returns the state as it is. *)
Lemma Read_merged_state (m : virtualMachineModel) (data : InstanceAndUsageInfo)
    (listing : result (list InstanceAndUsageInfo)) :
  GetInstance listing (Id data) = Ok data ->
  Read (fst (populateModelFromInstanceResponse m data)) []
    (fun _ => listing)
  = {| State := Some (fst (populateModelFromInstanceResponse m data));
       Diagnostics := [] |}.
Proof.
  intros Hget. unfold Read.
  change (ValueString (ID (fst (populateModelFromInstanceResponse m data))))
    with (Id data).
  cbn [respAppend Diagnostics State Append foldl HasError existsb].
  rewrite Hget.
  pose proof (populateModel_idempotent m data) as Hidem.
  destruct (populateModelFromInstanceResponse
              (fst (populateModelFromInstanceResponse m data)) data)
    as [m' d] eqn:Hpop.
  assert (d = []) as ->.
  { unfold populateModelFromInstanceResponse in Hpop. by injection Hpop. }
  simpl in Hidem. subst m'. reflexivity.
Qed.

(** ** A creation that succeeds *)

(** [Create] when the rent call returned an id and, after ticks that kept
    it polling, a tick fetches a snapshot that passes the test. *)
Lemma Create_ready (plan : virtualMachineModel) (planDiags : list Diagnostic)
    (keys : result (list SshKey)) (rent : rentCall)
    (ids : RentInstanceResponseProto) (id : string) (rest : list string)
    (pre : list selectCase) (listing : result (list InstanceAndUsageInfo))
    (snap : InstanceAndUsageInfo) (tail : list selectCase) :
  rentReturns plan planDiags keys rent ids ->
  InstanceIds ids = id :: rest ->
  Forall (fun ev => keepsPolling id ev = true) pre ->
  GetInstance listing id = Ok snap ->
  instStatus snap = Active -> vmReady snap = true ->
  Create plan planDiags keys rent (pre ++ pollTick listing :: tail)
  = Returned
      {| State := Some (fst (populateModelFromInstanceResponse
                               (setID plan id) snap));
         Diagnostics := Append [] planDiags |}
      (length pre + 1).
Proof.
  intros Hrent Hids Hpre Hget Hst Hvm.
  rewrite (Create_enters_loop _ _ _ _ ids id rest) by done.
  rewrite createLoop_keeps_polling by done.
  cbn [createLoop]. rewrite Hget, Hvm.
  rewrite bool_decide_eq_true_2 by done. simpl. f_equal. lia.
Qed.

(** X13. The state a successful creation persists: it carries the rented id and
    the status Active, lists the virtual machines of the snapshot, of which
    there is at least one, has the public address of the snapshot when the
    snapshot has one and that of the plan otherwise, and keeps the recipe,
    datacenter, ssh_key_id and metadata of the plan. No diagnostic is
    added. *)
Theorem create_success_state (plan : virtualMachineModel)
    (planDiags : list Diagnostic) (keys : result (list SshKey))
    (rent : rentCall) (ids : RentInstanceResponseProto)
    (id : string) (rest : list string)
    (pre : list selectCase) (listing : result (list InstanceAndUsageInfo))
    (snap : InstanceAndUsageInfo) (tail : list selectCase) :
  rentReturns plan planDiags keys rent ids ->
  InstanceIds ids = id :: rest ->
  Forall (fun ev => keepsPolling id ev = true) pre ->
  GetInstance listing id = Ok snap ->
  instStatus snap = Active -> vmReady snap = true ->
  exists st,
    Create plan planDiags keys rent (pre ++ pollTick listing :: tail)
    = Returned {| State := Some st; Diagnostics := Append [] planDiags |}
        (length pre + 1)
    /\ ID st = StringValue id
    /\ Status st = StringValue Active
    /\ (exists first others,
          cloudriftapi.VirtualMachines snap = first :: others
          /\ VirtualMachines st
             = ListValue (vmInfo first :: map vmInfo others))
    /\ PublicIP st
       = match HostAddress snap with
         | Some a => StringValue a
         | None => PublicIP plan
         end
    /\ Recipe st = Recipe plan /\ Datacenter st = Datacenter plan
    /\ SSHKeyID st = SSHKeyID plan /\ Metadata st = Metadata plan.
Proof.
  intros Hrent Hids Hpre Hget Hst Hvm.
  eexists. split; [by apply (Create_ready _ _ _ _ ids id rest)|].
  simpl. split_and!; try done.
  - by rewrite (GetInstance_Id id listing snap Hget).
  - by rewrite Hst.
  - unfold vmReady in Hvm.
    destruct (cloudriftapi.VirtualMachines snap) as [|first others];
      [discriminate|].
    by exists first, others.
Qed.

(** X14. A Read that follows a successful creation and gets the listing the
    creation ended on returns the very state the creation persisted, with
    no diagnostic: the refresh sees no drift. *)
Theorem create_then_read_is_stable (plan : virtualMachineModel)
    (planDiags : list Diagnostic) (keys : result (list SshKey))
    (rent : rentCall) (ids : RentInstanceResponseProto)
    (id : string) (rest : list string)
    (pre : list selectCase) (listing : result (list InstanceAndUsageInfo))
    (snap : InstanceAndUsageInfo) (tail : list selectCase) :
  rentReturns plan planDiags keys rent ids ->
  InstanceIds ids = id :: rest ->
  Forall (fun ev => keepsPolling id ev = true) pre ->
  GetInstance listing id = Ok snap ->
  instStatus snap = Active -> vmReady snap = true ->
  exists st n diags,
    Create plan planDiags keys rent (pre ++ pollTick listing :: tail)
    = Returned {| State := Some st; Diagnostics := diags |} n
    /\ Read st [] (fun _ => listing)
       = {| State := Some st; Diagnostics := [] |}.
Proof.
  intros Hrent Hids Hpre Hget Hst Hvm.
  eexists _, _, _. split; [by apply (Create_ready _ _ _ _ ids id rest)|].
  pose proof (GetInstance_Id id listing snap Hget) as Hid. subst id.
  by apply Read_merged_state.
Qed.

(** ** A creation without its key *)

Lemma find_none_Forall {A : Type} (f : A -> bool) (l : list A) :
  Forall (fun x => f x = false) l -> List.find f l = None.
Proof. induction 1 as [|x l Hx _ IH]; simpl; [done|]. by rewrite Hx. Qed.

Lemma find_first {A : Type} (f : A -> bool) (pre : list A) (x : A)
    (post : list A) :
  Forall (fun y => f y = false) pre -> f x = true ->
  List.find f (pre ++ x :: post) = Some x.
Proof.
  induction 1 as [|y pre Hy _ IH]; intros Hx; simpl.
  - by rewrite Hx.
  - rewrite Hy. by apply IH.
Qed.

(** X15. A virtual machine is never rented without its SSH key: when the keys
    cannot be listed, or no listed key has the id of the plan, the creation
    fails with an error and with nothing persisted, whatever the rent call
    would have answered and whatever events are pending. *)
Theorem create_needs_listed_key (plan : virtualMachineModel)
    (planDiags : list Diagnostic) (keys : result (list SshKey))
    (rent : rentCall) (events : list selectCase) :
  HasError (Append [] planDiags) = false ->
  (forall ks,
     keys = Ok ks ->
     Forall (fun k => keyId k <> ValueString (SSHKeyID plan)) ks ->
     Create plan planDiags keys rent events
     = Returned
         {| State := None;
            Diagnostics :=
              AddError (Append [] planDiags)
                "Error fetching Virtual Machine SSH Key"
                ("Could not fetch Virtual Machine SSH Key with ID: " +:+
                 ValueString (SSHKeyID plan) +:+ " as it doest not exists") |}
         0)
  /\ (forall err,
        keys = Err err ->
        Create plan planDiags keys rent events
        = Returned
            {| State := None;
               Diagnostics :=
                 AddError (Append [] planDiags)
                   "Error reading CloudRift SSH Keys"
                   ("Could not list CloudRift SSH Keys needed for the Virtual Machine: "
                    +:+ Error err) |}
            0).
Proof.
  intros Hdiags. unfold Create. cbn [respAppend Diagnostics State].
  rewrite Hdiags. split.
  - intros ks -> Hnone. rewrite find_none_Forall; [done|].
    eapply Forall_impl; [exact Hnone|]. intros k Hk. simpl in Hk.
    by apply bool_decide_eq_false.
  - by intros err ->.
Qed.

(** ** The SSH key resource *)

(** X17. Creating an SSH key whose plan was read without an error. An empty
    name or an empty public key is turned down with an error before the
    server is asked: no [AddSSHKey] call is made and nothing is persisted.
    Otherwise exactly one call is made, with the name and key of the plan;
    when it succeeds the state persisted is the key as the server returned
    it, id included, and no diagnostic is added; when it fails nothing is
    persisted and the error is reported. *)
Theorem sshKey_create_validates_first (plan : sshKeyModel)
    (planDiags : list Diagnostic)
    (AddSSHKey : string -> string -> result SshKey) :
  let name := ValueString (sshName plan) in
  let publicKey := ValueString (sshPublicKey plan) in
  let run := sshKeyResource.Create plan planDiags AddSSHKey in
  HasError (Append [] planDiags) = false ->
  (name = "" \/ publicKey = "" ->
     snd run = []
     /\ sshKeyResource.sshState (fst run) = None
     /\ HasError (sshKeyResource.sshDiagnostics (fst run)) = true)
  /\ (name <> "" -> publicKey <> "" ->
        snd run = [(name, publicKey)]
        /\ (forall key, AddSSHKey name publicKey = Ok key ->
              fst run
              = {| sshKeyResource.sshState :=
                     Some (sshKeyResource.modelOfKey key);
                   sshKeyResource.sshDiagnostics := Append [] planDiags |})
        /\ (forall err, AddSSHKey name publicKey = Err err ->
              sshKeyResource.sshState (fst run) = None
              /\ HasError (sshKeyResource.sshDiagnostics (fst run)) = true)).
Proof.
  intros name publicKey run Hdiags. subst run.
  unfold sshKeyResource.Create. fold name publicKey. rewrite Hdiags. split.
  - intros Hempty.
    destruct (decide (name = "")) as [|Hn]; simpl.
    { split_and!; try done. apply HasError_AddError. }
    destruct Hempty as [|Hk]; [done|]. rewrite decide_True by done. simpl.
    split_and!; try done. apply HasError_AddError.
  - intros Hn Hk. rewrite !decide_False by done.
    destruct (AddSSHKey name publicKey) as [key|err]; simpl.
    + split_and!; try done. by intros key' [= <-].
    + split_and!; try done. intros err' _. split; [done|].
      apply HasError_AddError.
Qed.

(** X18. Reading an SSH key whose prior state was read without an error. The
    state is refreshed from the first listed key that has the id of the
    state; when no listed key has it the resource is removed from the state
    with no diagnostic; when the keys cannot be listed the prior state
    stays and the error is reported. *)
Theorem sshKey_read_by_id (state : sshKeyModel) (stateDiags : list Diagnostic)
    (keys : result (list SshKey)) :
  HasError (Append [] stateDiags) = false ->
  (forall pre k post,
     keys = Ok (pre ++ k :: post) ->
     Forall (fun j => keyId j <> ValueString (sshID state)) pre ->
     keyId k = ValueString (sshID state) ->
     sshKeyResource.Read state stateDiags keys
     = {| sshKeyResource.sshState := Some (sshKeyResource.modelOfKey k);
          sshKeyResource.sshDiagnostics := Append [] stateDiags |})
  /\ (forall ks,
        keys = Ok ks ->
        Forall (fun j => keyId j <> ValueString (sshID state)) ks ->
        sshKeyResource.Read state stateDiags keys
        = {| sshKeyResource.sshState := None;
             sshKeyResource.sshDiagnostics := Append [] stateDiags |})
  /\ (forall err,
        keys = Err err ->
        sshKeyResource.Read state stateDiags keys
        = {| sshKeyResource.sshState := Some state;
             sshKeyResource.sshDiagnostics :=
               AddError (Append [] stateDiags)
                 "Error reading CloudRift SSH Keys"
                 ("Could not list CloudRift SSH Keys: " +:+ Error err) |}).
Proof.
  intros Hdiags. unfold sshKeyResource.Read. rewrite Hdiags. split_and!.
  - intros pre k post -> Hpre Hk. rewrite find_first; [done| |].
    + eapply Forall_impl; [exact Hpre|]. intros j Hj. simpl in Hj.
      by apply bool_decide_eq_false.
    + by apply bool_decide_eq_true.
  - intros ks -> Hnone. rewrite find_none_Forall; [done|].
    eapply Forall_impl; [exact Hnone|]. intros j Hj. simpl in Hj.
    by apply bool_decide_eq_false.
  - by intros err ->.
Qed.

(** X19. Create, then Read. When the key a creation got back from the server is
    the first listed key with its id, the Read that follows returns exactly
    the state the creation persisted, with no diagnostic. *)
Theorem sshKey_create_then_read (plan : sshKeyModel)
    (AddSSHKey : string -> string -> result SshKey) (key : SshKey)
    (pre post : list SshKey) :
  ValueString (sshName plan) <> "" ->
  ValueString (sshPublicKey plan) <> "" ->
  AddSSHKey (ValueString (sshName plan)) (ValueString (sshPublicKey plan))
  = Ok key ->
  Forall (fun j => keyId j <> keyId key) pre ->
  exists st,
    fst (sshKeyResource.Create plan [] AddSSHKey)
    = {| sshKeyResource.sshState := Some st;
         sshKeyResource.sshDiagnostics := [] |}
    /\ sshID st = StringValue (keyId key)
    /\ sshKeyResource.Read st [] (Ok (pre ++ key :: post))
       = {| sshKeyResource.sshState := Some st;
            sshKeyResource.sshDiagnostics := [] |}.
Proof.
  intros Hn Hk Hadd Hpre. exists (sshKeyResource.modelOfKey key).
  split_and!; [|done|].
  - unfold sshKeyResource.Create. simpl. rewrite !decide_False by done.
    by rewrite Hadd.
  - unfold sshKeyResource.Read. simpl. rewrite find_first; [done| |].
    + eapply Forall_impl; [exact Hpre|]. intros j Hj. simpl in Hj.
      by apply bool_decide_eq_false.
    + by apply bool_decide_eq_true.
Qed.

(** ** The SSH key data source *)

(** X20. Looking a key up by name, the configuration read without an error. The
    first listed key with the name fills the state, with no diagnostic;
    when no listed key has the name nothing is set and the error names the
    key that was asked for. *)
Theorem sshKey_data_source_by_name (model : sshKeyDataSource.sshKeyDataModel)
    (configDiags : list Diagnostic) (keys : list SshKey) :
  let name := ValueString (sshKeyDataSource.dataName model) in
  HasError (Append [] configDiags) = false ->
  (forall pre k post,
     keys = pre ++ k :: post ->
     Forall (fun j => keyName j <> name) pre -> keyName k = name ->
     sshKeyDataSource.Read model configDiags (Ok keys)
     = {| sshKeyDataSource.dataState :=
            Some {| sshKeyDataSource.dataID := StringValue (keyId k);
                    sshKeyDataSource.dataName := StringValue name;
                    sshKeyDataSource.dataPublicKey :=
                      StringValue (keyPublicKey k) |};
          sshKeyDataSource.dataDiagnostics := Append [] configDiags |})
  /\ (Forall (fun j => keyName j <> name) keys ->
        sshKeyDataSource.Read model configDiags (Ok keys)
        = {| sshKeyDataSource.dataState := None;
             sshKeyDataSource.dataDiagnostics :=
               AddError (Append [] configDiags)
                 "Error reading CloudRift SSH Key"
                 ("Could not find CloudRift SSH Key " +:+ name) |}).
Proof.
  intros name Hdiags. unfold sshKeyDataSource.Read. fold name.
  rewrite Hdiags. split.
  - intros pre k post -> Hpre Hk. rewrite find_first.
    + by rewrite Hk.
    + eapply Forall_impl; [exact Hpre|]. intros j Hj. simpl in Hj.
      by apply bool_decide_eq_false.
    + by apply bool_decide_eq_true.
  - intros Hnone. rewrite find_none_Forall; [done|].
    eapply Forall_impl; [exact Hnone|]. intros j Hj. simpl in Hj.
    by apply bool_decide_eq_false.
Qed.

(** ** Configuring the provider *)

Section ProviderConfigure.
Import CloudRiftProvider.
Context {Client : Type}.
Variable NewCustom :
  string -> string -> string -> list HttpClientOption -> result Client.

Lemma configHasError_app (ds ds' : list configDiagnostic) :
  configHasError (ds ++ ds') = configHasError ds || configHasError ds'.
Proof. unfold configHasError. apply existsb_app. Qed.

Lemma configHasError_AddAttributeError (ds : list configDiagnostic)
    (path summary detail : string) :
  configHasError (AddAttributeError ds path summary detail) = true.
Proof.
  unfold AddAttributeError, configAppend. simpl.
  destruct (decide (_ ∈ ds)) as [Hin|Hin].
  - unfold configHasError. apply existsb_exists.
    eexists. split; [by apply list_elem_of_In|]. done.
  - rewrite configHasError_app. simpl. by rewrite orb_true_r.
Qed.

(** X21. The provider hands a client to its resources only when all went well:
    the configuration was read without an error, none of its three values
    is unknown, the token in effect is not empty, and [NewCustom] returned
    that client for the settings in effect and four retries. A setting in
    effect is the configured value when there is one and the value of the
    environment variable otherwise, with the default endpoint and the
    default protocol version standing in for an empty base URL and an empty
    version. The data sources get the same client, and the response holds
    no error. *)
Theorem configure_hands_out_client (Getenv : string -> string)
    (config : CloudRiftProviderModel) (getDiags : list configDiagnostic)
    (client : Client) :
  let resp := Configure Getenv NewCustom config getDiags in
  let setting v name := if IsNull v then Getenv name else ValueString v in
  let token := setting (configToken config) "CLOUDRIFT_TOKEN" in
  let baseURL := setting (configBaseURL config) "CLOUDRIFT_BASE_URL" in
  let protoVersion :=
    setting (configProtoVersion config) "CLOUDRIFT_PROTO_VERSION" in
  ResourceData resp = Some client ->
  configHasError (configAppend [] getDiags) = false
  /\ IsUnknown (configToken config) = false
  /\ IsUnknown (configBaseURL config) = false
  /\ IsUnknown (configProtoVersion config) = false
  /\ token <> ""
  /\ NewCustom (if decide (baseURL = "") then Endpoint else baseURL) token
       (if decide (protoVersion = "") then Proto20250610 else protoVersion)
       [WithRetryableHttpClient 4]
     = Ok client
  /\ DataSourceData resp = Some client
  /\ configHasError (configDiagnostics resp) = false.
Proof.
  intros resp setting token baseURL protoVersion. subst resp.
  unfold Configure.
  destruct (configHasError (configAppend [] getDiags)) eqn:Hget;
    [discriminate|].
  set (d0 := configAppend [] getDiags) in *.
  destruct (IsUnknown (configToken config)) eqn:Ht;
    destruct (IsUnknown (configBaseURL config)) eqn:Hu;
    destruct (IsUnknown (configProtoVersion config)) eqn:Hv;
    try (rewrite configHasError_AddAttributeError; discriminate).
  rewrite Hget.
  assert (Htok : (if negb (IsNull (configToken config))
                  then ValueString (configToken config)
                  else Getenv "CLOUDRIFT_TOKEN") = token).
  { subst token setting. simpl. by destruct (IsNull (configToken config)). }
  assert (Hurl : (if negb (IsNull (configBaseURL config))
                  then ValueString (configBaseURL config)
                  else Getenv "CLOUDRIFT_BASE_URL") = baseURL).
  { subst baseURL setting. simpl. by destruct (IsNull (configBaseURL config)). }
  assert (Hver : (if negb (IsNull (configProtoVersion config))
                  then ValueString (configProtoVersion config)
                  else Getenv "CLOUDRIFT_PROTO_VERSION") = protoVersion).
  { subst protoVersion setting. simpl.
    by destruct (IsNull (configProtoVersion config)). }
  rewrite Htok, Hurl, Hver.
  destruct (decide (token = "")) as [Hempty|Hne].
  { rewrite configHasError_AddAttributeError. discriminate. }
  rewrite Hget.
  destruct (NewCustom _ _ _ _) as [cl|err] eqn:Hnew; [|discriminate].
  simpl. intros [= ->]. by split_and!.
Qed.

(** Explicit configuration takes precedence: when the token, the base URL
    and the protocol version are all set in the configuration, the
    environment is of no consequence. *)
Lemma configure_explicit_settings_ignore_env (Getenv Getenv' : string -> string)
    (token baseURL protoVersion : string) (getDiags : list configDiagnostic) :
  Configure Getenv NewCustom
    {| configToken := StringValue token;
       configBaseURL := StringValue baseURL;
       configProtoVersion := StringValue protoVersion |} getDiags
  = Configure Getenv' NewCustom
      {| configToken := StringValue token;
         configBaseURL := StringValue baseURL;
         configProtoVersion := StringValue protoVersion |} getDiags.
Proof. reflexivity. Qed.

End ProviderConfigure.

(** ** The further properties on the scenarios *)

(** The key is gone on the server: the DELETE is answered with 404. *)
Lemma sshKey_delete_through_transport_witness :
  sshKeyResource.Delete sshState1 []
    (fun id => fst (DeleteSSHKey (answer 404 "404 Not Found") clientRetry2
                      newDeleteRequest parseNothing id net0))
  = [].
Proof.
  exact (proj1 (sshKey_delete_through_transport clientRetry2
                  (answer 404 "404 Not Found") newDeleteRequest parseNothing
                  sshState1 []
                  {| URL := "https://api.cloudrift.ai/api/v1/ssh-keys/11111";
                     Header := [] |}
                  {| StatusCode := 404; cloudriftapi.Status := "404 Not Found";
                     Body := Ok "" |}
                  net0 0 eq_refl eq_refl ltac:(simpl; lia)
                  ltac:(intros a Ha; lia) eq_refl) eq_refl).
Defined.

(** The instance is gone on the server: the terminate request is answered
    with 404, and the pending tick is never looked at. *)
Lemma instance_delete_through_transport_witness :
  Delete state1 []
    (fun id => fst (TerminateInstance (answer 404 "404 Not Found") clientRetry2
                      newTerminateRequest parseNothing id net0))
    [deleteTick (Ok [instance1 Active [vm true]])]
  = Some ([], 0%nat).
Proof.
  exact (proj1 (instance_delete_through_transport clientRetry2
                  (answer 404 "404 Not Found") newTerminateRequest parseNothing
                  state1 [] [deleteTick (Ok [instance1 Active [vm true]])]
                  {| URL := "https://api.cloudrift.ai/api/v1/instances/terminate";
                     Header := [] |}
                  {| StatusCode := 404; cloudriftapi.Status := "404 Not Found";
                     Body := Ok "" |}
                  net0 0 eq_refl eq_refl ltac:(simpl; lia)
                  ltac:(intros a Ha; lia) eq_refl) eq_refl).
Defined.

(** The fifth scenario of the specification, with one more tick before:
    the instance is Deactivating on the first tick and Inactive on the
    second, where the delete completes. *)
Lemma delete_polls_until_gone_witness :
  Delete state1 [] (fun _ => None)
    ([deleteTick (Ok [instance1 Deactivating [vm true]])]
     ++ deleteTick (Ok [instance1 Inactive []]) :: [])
  = Some ([], 2%nat).
Proof.
  pose proof (delete_polls_until_gone state1 [] (fun _ => None)
                [deleteTick (Ok [instance1 Deactivating [vm true]])]
                eq_refl eq_refl ltac:(repeat constructor))
    as (_ & _ & Hinactive & _).
  apply (Hinactive [instance1 Inactive []] []).
  constructor; [by right | constructor].
Defined.

(** The test server: the token is accepted and the listing has recipes. *)
Lemma NewCustom_client_is_authenticated_witness :
  let c := prepare "" "test" "" [WithRetryableHttpClient 4] in
  c = prepare "" "test" "" [WithRetryableHttpClient 4]
  /\ (exists req n resp email,
        newRequestAlways "POST" (HostURL c +:+ "api/v1/auth/me") = Ok req
        /\ answer 200 "200 OK" n (withApiKey c req) = Ok resp
        /\ 200 <= StatusCode resp < 300
        /\ parseAuthTest resp = Ok email /\ email <> "")
  /\ listed {| vmRecipies := cacheGroups asciiOnly ∅ listingUbuntu;
               listed := 1 |} = 1%nat
  /\ vmRecipies {| vmRecipies := cacheGroups asciiOnly ∅ listingUbuntu;
                   listed := 1 |} <> ∅
  /\ exists groups r,
       listRecipesUbuntu 0%nat = Ok (Some groups)
       /\ vmRecipies {| vmRecipies := cacheGroups asciiOnly ∅ listingUbuntu;
                        listed := 1 |}
          = cacheGroups asciiOnly ∅ groups
       /\ r ∈ listedRecipes groups /\ usable r = true.
Proof.
  apply (NewCustom_client_is_authenticated asciiOnly listRecipesUbuntu
           (answer 200 "200 OK") newRequestAlways parseAuthTest
           "" "test" "" [WithRetryableHttpClient 4] net0
           {| sent := 1; slept := [] |}).
  by vm_compute.
Defined.

(** A server whose recipes are all unusable: no client. *)
Lemma NewCustom_needs_usable_recipe_witness :
  NewCustom asciiOnly (fun _ => Ok (Some listingUnusable))
    (answer 200 "200 OK") newRequestAlways parseAuthTest
    "" "test" "" [WithRetryableHttpClient 4] net0
  = (Err (errorString "no recipes for VMs found"), {| sent := 1; slept := [] |}).
Proof.
  apply (proj1 (NewCustom_needs_usable_recipe asciiOnly
                  (fun _ => Ok (Some listingUnusable))
                  (answer 200 "200 OK") newRequestAlways parseAuthTest
                  "" "test" "" [WithRetryableHttpClient 4] net0
                  {| sent := 1; slept := [] |} listingUnusable
                  eq_refl eq_refl)).
  repeat constructor.
Defined.

(** The rent of the provider test, read backwards. *)
Lemma rent_success_inv_witness :
  ("ubuntu" <> "" /\ ["ssh-rsa AAAA testuser"] <> []
   /\ ("" ∉ ["ssh-rsa AAAA testuser"])
   /\ "us-east-nc-nr-1" <> "" /\ "rtx49-8c-nr.1" <> ""
   /\ (listed {| vmRecipies := cacheGroups asciiOnly ∅ listingUbuntu;
                 listed := 1 |} <= S (listed freshClient))%nat
   /\ exists cmds details,
        (("" = "" /\ cmds = "")
         \/ ("" <> "" /\
             exists raw, rejectBase64 "" = Ok raw /\ cmds = noTrim raw))
        /\ vmRecipies {| vmRecipies := cacheGroups asciiOnly ∅ listingUbuntu;
                         listed := 1 |} !! ToLower asciiOnly "ubuntu"
           = Some details
        /\ postRentOne
             (rentRequest clientRetry2 details "us-east-nc-nr-1"
                "rtx49-8c-nr.1" cmds ["ssh-rsa AAAA testuser"])
           = Ok (Some {| InstanceIds := ["1"] |})).
Proof.
  apply (rent_success_inv asciiOnly rejectBase64 noTrim listRecipesUbuntu
           postRentOne clientRetry2 "ubuntu" "us-east-nc-nr-1" "rtx49-8c-nr.1"
           "" ["ssh-rsa AAAA testuser"] freshClient).
  by vm_compute.
Defined.


(** The instance was terminated elsewhere and is listed as Inactive. *)
Lemma read_drops_gone_instance_witness :
  Read state1 [] (fun _ => Ok [instance1 Inactive []])
  = {| State := None; Diagnostics := [] |}.
Proof.
  pose proof (read_drops_gone_instance state1 []
                (fun _ => Ok [instance1 Inactive []]) eq_refl)
    as (Hinactive & _).
  apply (Hinactive [instance1 Inactive []] eq_refl).
  constructor; [by right | constructor].
Defined.

(** The first scenario of the specification, one poll shorter. *)
Lemma create_success_state_witness :
  exists st,
    Create plan0 [] (Ok [key1]) (rentIds ["1"])
      ([pollTick (Ok [instance1 Initializing []])]
       ++ pollTick (Ok [instance1 Active [vm true]]) :: [])
    = Returned {| State := Some st; Diagnostics := Append [] [] |}
        (length [pollTick (Ok [instance1 Initializing []])] + 1)
    /\ ID st = StringValue "1"
    /\ Status st = StringValue Active
    /\ (exists first others,
          cloudriftapi.VirtualMachines (instance1 Active [vm true])
          = first :: others
          /\ VirtualMachines st
             = ListValue (vmInfo first :: map vmInfo others))
    /\ PublicIP st
       = match HostAddress (instance1 Active [vm true]) with
         | Some a => StringValue a
         | None => PublicIP plan0
         end
    /\ Recipe st = Recipe plan0 /\ Datacenter st = Datacenter plan0
    /\ SSHKeyID st = SSHKeyID plan0 /\ Metadata st = Metadata plan0.
Proof.
  apply (create_success_state plan0 [] (Ok [key1]) (rentIds ["1"])
           {| InstanceIds := ["1"] |} "1" []
           [pollTick (Ok [instance1 Initializing []])]
           (Ok [instance1 Active [vm true]]) (instance1 Active [vm true]) []).
  - split; [reflexivity|]. exists [key1], key1. split_and!; reflexivity.
  - reflexivity.
  - repeat constructor.
  - reflexivity.
  - reflexivity.
  - reflexivity.
Defined.

Lemma create_then_read_is_stable_witness :
  exists st n diags,
    Create plan0 [] (Ok [key1]) (rentIds ["1"])
      ([] ++ pollTick (Ok [instance1 Active [vm true]]) :: [])
    = Returned {| State := Some st; Diagnostics := diags |} n
    /\ Read st [] (fun _ => Ok [instance1 Active [vm true]])
       = {| State := Some st; Diagnostics := [] |}.
Proof.
  apply (create_then_read_is_stable plan0 [] (Ok [key1]) (rentIds ["1"])
           {| InstanceIds := ["1"] |} "1" [] []
           (Ok [instance1 Active [vm true]]) (instance1 Active [vm true]) []).
  - split; [reflexivity|]. exists [key1], key1. split_and!; reflexivity.
  - reflexivity.
  - constructor.
  - reflexivity.
  - reflexivity.
  - reflexivity.
Defined.

(** The plan names key "1"; only key "11111" is registered. *)
Lemma create_needs_listed_key_witness :
  Create plan0 [] (Ok [key11111]) (rentIds ["1"])
    [pollTick (Ok [instance1 Active [vm true]])]
  = Returned
      {| State := None;
         Diagnostics :=
           AddError (Append [] [])
             "Error fetching Virtual Machine SSH Key"
             ("Could not fetch Virtual Machine SSH Key with ID: " +:+
              ValueString (SSHKeyID plan0) +:+ " as it doest not exists") |}
      0.
Proof.
  pose proof (create_needs_listed_key plan0 [] (Ok [key11111]) (rentIds ["1"])
                [pollTick (Ok [instance1 Active [vm true]])] eq_refl)
    as (Hmissing & _).
  apply (Hmissing [key11111] eq_refl).
  constructor; [discriminate | constructor].
Defined.

(** The SSH key of the resource test is created with one call. *)
Lemma sshKey_create_validates_first_witness :
  snd (sshKeyResource.Create sshPlan1 [] addKeyTest)
  = [("anotheruser-key", "ssh-rsa AAAA anotheruser")]
  /\ fst (sshKeyResource.Create sshPlan1 [] addKeyTest)
     = {| sshKeyResource.sshState := Some (sshKeyResource.modelOfKey key11111);
          sshKeyResource.sshDiagnostics := [] |}.
Proof.
  pose proof (sshKey_create_validates_first sshPlan1 [] addKeyTest eq_refl)
    as (_ & Hvalid).
  destruct (Hvalid ltac:(discriminate) ltac:(discriminate))
    as (Hcalls & Hok & _).
  split; [exact Hcalls | exact (Hok key11111 eq_refl)].
Defined.

(** The key is the second of the listing. *)
Lemma sshKey_read_by_id_witness :
  sshKeyResource.Read sshState1 [] (Ok ([key1] ++ key11111 :: []))
  = {| sshKeyResource.sshState := Some (sshKeyResource.modelOfKey key11111);
       sshKeyResource.sshDiagnostics := [] |}.
Proof.
  pose proof (sshKey_read_by_id sshState1 [] (Ok ([key1] ++ key11111 :: []))
                eq_refl) as (Hfound & _).
  apply (Hfound [key1] key11111 [] eq_refl); [|reflexivity].
  constructor; [discriminate | constructor].
Defined.

Lemma sshKey_create_then_read_witness :
  exists st,
    fst (sshKeyResource.Create sshPlan1 [] addKeyTest)
    = {| sshKeyResource.sshState := Some st;
         sshKeyResource.sshDiagnostics := [] |}
    /\ sshID st = StringValue (keyId key11111)
    /\ sshKeyResource.Read st [] (Ok ([key1] ++ key11111 :: []))
       = {| sshKeyResource.sshState := Some st;
            sshKeyResource.sshDiagnostics := [] |}.
Proof.
  apply (sshKey_create_then_read sshPlan1 addKeyTest key11111 [key1] []).
  - discriminate.
  - discriminate.
  - reflexivity.
  - constructor; [discriminate | constructor].
Defined.

(** The data source test: "test-key" is the first key of the listing. *)
Lemma sshKey_data_source_by_name_witness :
  sshKeyDataSource.Read dataModel1 [] (Ok [key1; key11111])
  = {| sshKeyDataSource.dataState :=
         Some {| sshKeyDataSource.dataID := StringValue "1";
                 sshKeyDataSource.dataName := StringValue "test-key";
                 sshKeyDataSource.dataPublicKey :=
                   StringValue "ssh-rsa AAAA testuser" |};
       sshKeyDataSource.dataDiagnostics := [] |}.
Proof.
  pose proof (sshKey_data_source_by_name dataModel1 [] [key1; key11111]
                eq_refl) as (Hfound & _).
  apply (Hfound [] key1 [key11111] eq_refl); [constructor | reflexivity].
Defined.

(** The token comes from the configuration, the base URL from the
    environment, the protocol version from the default. *)
Lemma configure_hands_out_client_witness :
  newCustomEcho "http://127.0.0.1/" "test" "2025-06-10"
    [WithRetryableHttpClient 4]
  = Ok ("http://127.0.0.1/", "test", "2025-06-10")
  /\ CloudRiftProvider.DataSourceData
       (CloudRiftProvider.Configure envBaseURL newCustomEcho configTokenOnly [])
     = Some ("http://127.0.0.1/", "test", "2025-06-10").
Proof.
  pose proof (configure_hands_out_client newCustomEcho envBaseURL
                configTokenOnly [] ("http://127.0.0.1/", "test", "2025-06-10")
                eq_refl) as (_ & _ & _ & _ & _ & Hnew & Hdata & _).
  split; [exact Hnew | exact Hdata].
Defined.

(** ** A creation whose first poll fails *)

(** X16. The first poll after a successful rent fails, before any snapshot was
    fetched. With an error that is not NotFound, the plan with the rented
    id written into it is persisted, so the instance stays tracked, and the
    error is reported. With NotFound, the error is reported and nothing is
    persisted. *)
Theorem create_first_poll_fails (plan : virtualMachineModel)
    (planDiags : list Diagnostic) (keys : result (list SshKey))
    (rent : rentCall) (ids : RentInstanceResponseProto)
    (id : string) (rest : list string)
    (listing : result (list InstanceAndUsageInfo)) (err : error)
    (tail : list selectCase) :
  rentReturns plan planDiags keys rent ids ->
  InstanceIds ids = id :: rest ->
  GetInstance listing id = Err err ->
  exists resp,
    Create plan planDiags keys rent (pollTick listing :: tail)
    = Returned resp 1
    /\ HasError (Diagnostics resp) = true
    /\ State resp
       = (if errors_Is_ErrNotFound err then None
          else Some (setID plan id)).
Proof.
  intros Hrent Hids Hget.
  rewrite (Create_enters_loop _ _ _ _ ids id rest) by done.
  cbn [createLoop]. rewrite Hget.
  destruct (errors_Is_ErrNotFound err); simpl; reports_error.
Qed.

(** The listing call breaks down on the first poll. *)
Lemma create_first_poll_fails_witness :
  exists resp,
    Create plan0 [] (Ok [key1]) (rentIds ["1"])
      (pollTick (Err (errorString "connection reset")) :: [])
    = Returned resp 1
    /\ HasError (Diagnostics resp) = true
    /\ State resp
       = (if errors_Is_ErrNotFound (errorString "connection reset") then None
          else Some (setID plan0 "1")).
Proof.
  apply (create_first_poll_fails plan0 [] (Ok [key1]) (rentIds ["1"])
           {| InstanceIds := ["1"] |} "1" []).
  - split; [reflexivity|]. exists [key1], key1. split_and!; reflexivity.
  - reflexivity.
  - reflexivity.
Defined.
